(** * MTraderData: the feed state machine of backtradermql5/mt5data.py

    A shallow embedding of [MTraderData._load], [_st_start], [haslivedata],
    [_load_tick] and [_load_candle], with the properties of the feed that the
    specification states about them.

    Python floats are Rocq's primitive binary64 floats.  The [while True] loop
    of [_load] is one function for the loop body and a fuel-indexed iteration
    of it, so that a poll that never returns shows as a loop that no amount of
    fuel finishes. *)

From Stdlib Require Import ZArith List String Bool Lia.
From Stdlib Require Import Floats.
Import ListNotations.

Set Warnings "-inexact-float".
Local Open Scope Z_scope.

(** ** Python numbers *)

Module Py.

(** Exceptions that the modelled code can raise. *)
Inductive Exn :=
| KeyError (key : string)   (* msg[key] on a dict without that key *)
| ValueError                (* tuple unpacking with the wrong arity *)
| OverflowError             (* int too large to convert to float *)
| IndexError                (* line buffer read or written before forward() *)
| AttributeError            (* backfill_from is None *)
| Empty                     (* queue.Empty *)
| Again.                    (* zmq.error.Again: RCVTIMEO elapsed *)

Inductive Res (A : Type) :=
| Ok (a : A)
| Err (e : Exn).
Arguments Ok {A} a.
Arguments Err {A} e.

Definition bind {A B} (r : Res A) (k : A -> Res B) : Res B :=
  match r with
  | Ok a => k a
  | Err e => Err e
  end.

(** [float(z)] of a Python int: the nearest binary64 value, ties to even;
    OverflowError when that is not finite. *)
Definition float_of_int (z : Z) : Res float :=
  let x := SF2Prim (binary_normalize prec emax z 0 false) in
  if PrimFloat.is_infinity x then Err OverflowError else Ok x.

(** [sum(l)] of a list of floats: Python starts from the int 0. *)
Definition sum (l : list float) : float := fold_left PrimFloat.add l zero.

(** Nearest integer to n/d (d > 0), ties to the even one. *)
Definition div_half_even (n d : Z) : Z :=
  let q := n / d in
  match 2 * (n mod d) ?= d with
  | Lt => q
  | Gt => q + 1
  | Eq => if Z.even q then q else q + 1
  end.

(** The integer nearest to m * 2^e * 10^k, computed exactly. *)
Definition scaled (m : positive) (e k : Z) : Z :=
  let p := Z.pos m * 10 ^ k in
  if 0 <=? e then p * 2 ^ e else div_half_even p (2 ^ (- e)).

(** [round(x, ndigits)] for a float and ndigits >= 0.  CPython prints the
    exact binary value of x correctly rounded to ndigits decimals (ties to
    even) and reads the decimal back as the nearest binary64 value; a NaN, an
    infinity or a zero is returned as it is. *)
Definition round (x : float) (ndigits : Z) : float :=
  match Prim2SF x with
  | S754_finite s m e =>
      match scaled m e ndigits with
      | Z.pos n =>
          SF2Prim (SFdiv prec emax (S754_finite s n 0)
                     (S754_finite false (Z.to_pos (10 ^ ndigits)) 0))
      | _ => if s then neg_zero else zero
      end
  | _ => x
  end.

(** [s.endswith(suffix)] *)
Definition endswith (s suffix : string) : bool :=
  let n := String.length s in
  let k := String.length suffix in
  (Nat.leb k n && String.eqb (substring (n - k) k s) suffix)%bool.

End Py.
Import Py.

Notation "x <- r ;; k" := (bind r (fun x => k))
  (at level 61, r at next level, right associativity).

(** ** Data model *)

(** States for the finite state machine in [_load]. *)
Inductive FeedState := _ST_FROM | _ST_START | _ST_LIVE | _ST_HISTORBACK | _ST_OVER.

(** The documented options of the [subscribe] parameter: 'DATA', 'SUB', None. *)
Inductive Subscribe := DATA | SUB | SubNone.

Inductive Notification := DELAYED | CONNECTED | DISCONNECTED | LIVE.

(** The [data] entry of a message: a tick is (epoch milliseconds, bid, ask), a
    candle is (epoch seconds, open, high, low, close, volume, spread). *)
Inductive Payload :=
| Tick (time_stamp : Z) (_bid _ask : float)
| Candle (time_stamp : Z) (_open _high _low _close _volume : float) (_spread : Z).

(** A message of the live channel: a dict read through the keys "status",
    "timeframe", "symbol" and "data"; an absent key is [None] here. *)
Record LiveMsg := {
  m_status : option string;
  m_timeframe : option string;
  m_symbol : option string;
  m_data : option Payload
}.

(** [if msg:] -- an empty dict (and JSON null) is falsy. *)
Definition truthy (msg : LiveMsg) : bool :=
  match m_status msg, m_timeframe msg, m_symbol msg, m_data msg with
  | None, None, None, None => false
  | _, _, _, _ => true
  end.

(** What the historical queue yields: [None] (the queue was cancelled), a
    payload, or a falsy value that is not None (the end of the history). *)
Inductive HistMsg := HNone | HData (d : Payload) | HEnd.

Record Bar := {
  datetime : float;
  open : float;
  high : float;
  low : float;
  close : float;
  volume : float;
  openinterest : float
}.

Definition nan_bar : Bar := Build_Bar nan nan nan nan nan nan nan.

(** The argument of datetime.fromtimestamp: an int or a float. *)
Inductive Stamp := StampInt (z : Z) | StampFloat (x : float).

Record Params := {
  p_dataname : string;
  p_timeframe : Z;
  p_compression : Z;
  p_subscribe : Subscribe;
  p_historical : bool;
  p_backfill : bool;
  p_include_last : bool;
  p_reconnect : bool;
  p_useask : bool;
  p_addspread : bool
}.

(** A call of the store's [price_data]. *)
Record HistRequest := {
  r_dataname : string;
  r_date_begin : option float;
  r_date_end : option float;
  r_timeframe : Z;
  r_compression : Z;
  r_include_last : bool
}.

(** The attributes of the feed object that [_load] reads and writes.  [lines]
    holds the bars of the line buffers, newest first: its head is index 0 (the
    slot the host engine opened with forward() before it calls [_load]) and the
    bar after it is index -1. *)
Record Feed := {
  p : Params;
  _state : FeedState;
  _statelivereconn : bool;
  fromdate : float;
  todate : float;
  qhist : list HistMsg;
  _historyback_queue_size : Z;
  lines : list Bar;
  notifs : list Notification
}.

(** What lives outside the feed object: the store's live queue, the SUB socket,
    the answers the store gives to [price_data] and the requests it received,
    and the external feed given as [backfill_from] (None when there is none). *)
Record Env := {
  q_livedata : list LiveMsg;
  data_sub : list (string * LiveMsg);
  price_data_replies : list (list HistMsg);
  requests : list HistRequest;
  backfill_from : option (list Bar)
}.

(** ** Attribute updates *)

Definition set_state (f : Feed) (s : FeedState) : Feed :=
  Build_Feed (p f) s (_statelivereconn f) (fromdate f) (todate f) (qhist f)
    (_historyback_queue_size f) (lines f) (notifs f).

Definition set_statelivereconn (f : Feed) (b : bool) : Feed :=
  Build_Feed (p f) (_state f) b (fromdate f) (todate f) (qhist f)
    (_historyback_queue_size f) (lines f) (notifs f).

Definition set_fromdate (f : Feed) (d : float) : Feed :=
  Build_Feed (p f) (_state f) (_statelivereconn f) d (todate f) (qhist f)
    (_historyback_queue_size f) (lines f) (notifs f).

(** [self.qhist = q], and the queue after a [get] together with its [qsize()]. *)
Definition set_qhist (f : Feed) (q : list HistMsg) : Feed :=
  Build_Feed (p f) (_state f) (_statelivereconn f) (fromdate f) (todate f) q
    (_historyback_queue_size f) (lines f) (notifs f).

Definition set_historyback_queue_size (f : Feed) (n : Z) : Feed :=
  Build_Feed (p f) (_state f) (_statelivereconn f) (fromdate f) (todate f) (qhist f)
    n (lines f) (notifs f).

Definition set_lines (f : Feed) (l : list Bar) : Feed :=
  Build_Feed (p f) (_state f) (_statelivereconn f) (fromdate f) (todate f) (qhist f)
    (_historyback_queue_size f) l (notifs f).

Definition put_notification (f : Feed) (n : Notification) : Feed :=
  Build_Feed (p f) (_state f) (_statelivereconn f) (fromdate f) (todate f) (qhist f)
    (_historyback_queue_size f) (lines f) (notifs f ++ [n]).

(** ** Line buffers *)

(** [len(self)]: the number of bars in the buffers, the open slot included. *)
Definition len (f : Feed) : Z := Z.of_nat (List.length (lines f)).

(** [self.lines.datetime[-1]]: the bar before the open slot.  The buffer is
    an array indexed at [idx - 1]; with a single bar that index is -1, which
    Python reads as the last element, the open slot itself. *)
Definition datetime_prev (f : Feed) : Res float :=
  match lines f with
  | [] => Err IndexError
  | [b] => Ok (datetime b)
  | _ :: b :: _ => Ok (datetime b)
  end.

(** Writing all the lines at index 0. *)
Definition write_bar (f : Feed) (b : Bar) : Res Feed :=
  match lines f with
  | [] => Err IndexError
  | _ :: older => Ok (set_lines f (b :: older))
  end.

(** ** The feed *)

(** What a pass through the body of the [while True] loop of [_load] does. *)
Inductive PyRet := PyTrue | PyFalse | PyNone.

Inductive Ctl :=
| Return (r : PyRet)     (* return r *)
| Continue               (* the next iteration of the loop *)
| Raise (e : Exn)        (* an exception leaves _load *)
| Blocks.                (* qhist.get() waits for the store *)

(** The result of a poll: what a pass gives, or [Spins] when the fuel is used
    up with the loop still going round. *)
Inductive Poll :=
| Done (c : Ctl)
| Spins.

(** ** Sample data

    A store that labels ticks "TICK" and everything else "M1", day numbers
    counted from the epoch, and feeds for EURUSD and USDJPY one-minute
    candles. *)

Module Sample.

Definition granularity (timeframe compression : Z) : string :=
  if timeframe =? 1 then "TICK" else "M1".

Definition days (t : Stamp) : float :=
  match t with
  | StampInt z => (SF2Prim (binary_normalize prec emax z 0 false) / 86400)%float
  | StampFloat x => (x / 86400)%float
  end.

Definition params (dataname : string) (timeframe : Z) (subscribe : Subscribe)
    (historical backfill addspread : bool) : Params :=
  Build_Params dataname timeframe 1 subscribe historical backfill false true
    false addspread.

(** A feed in [state] whose buffers hold [bars]. *)
Definition feed (ps : Params) (state : FeedState) (reconn : bool)
    (hist : list HistMsg) (bars : list Bar) : Feed :=
  Build_Feed ps state reconn neg_infinity infinity hist 0 bars [].

Definition env (live : list LiveMsg) : Env :=
  Build_Env live [] [] [] None.

Definition env_sub (live : list LiveMsg) : Env :=
  Build_Env [] (map (fun m => ("EURUSD"%string, m)) live) [] [] None.

(** A bar that has the day number [d] and the price 1 in every field. *)
Definition bar (d : float) : Bar := Build_Bar d 1 1 1 1 0 0.

Definition status_msg (status : string) : LiveMsg :=
  Build_LiveMsg (Some status) None None None.

Definition data_msg (timeframe symbol : string) (data : Payload) : LiveMsg :=
  Build_LiveMsg (Some "CONNECTED"%string) (Some timeframe) (Some symbol) (Some data).

(** EURUSD one-minute candles over the store's queue, with backfill. *)
Definition eurusd : Params := params "EURUSD" 4 DATA false true false.

(** The candle of day [d] (86400 seconds a day) at price 1.5. *)
Definition candle (d : Z) : Payload := Candle (86400 * d) 1.5 1.5 1.5 1.5 10 20.

(** The tick of day [d], in milliseconds. *)
Definition tick (d : Z) : Payload := Tick (86400000 * d) 1.1 1.2.

(** An external feed that hands out the bar of day 5 and then that of day 3. *)
Definition env_from : Env := Build_Env [] [] [] [] (Some [bar 5; bar 3]).

(** A feed of EURUSD ticks over the store's queue. *)
Definition eurusd_ticks : Params := params "EURUSD" 1 DATA false true false.

(** A feed in HISTORBACK whose last bar is of day 3, with the candles of the
    days 1, 2 and 4 and the end marker in the historical queue. *)
Definition overlap_feed : Feed :=
  feed eurusd _ST_HISTORBACK false
    [HData (candle 1); HData (candle 2); HData (candle 4); HEnd]
    [nan_bar; bar 3].

(** The store's answer to the first request: the candles of the days 2, 1
    and 3, then the end marker. *)
Definition env_history : Env :=
  Build_Env [] [] [[HData (candle 2); HData (candle 1); HData (candle 3); HEnd]]
    [] None.

(** A feed in the LIVE state whose last bar is of day 3. *)
Definition live_feed (ps : Params) (reconn : bool) : Feed :=
  feed ps _ST_LIVE reconn [] [nan_bar; bar 3].

(** A feed of EURUSD candles without subscription, and a store that answers
    the first request with the candle of day 2 and the end marker. *)
Definition unsubscribed : Params := params "EURUSD" 4 SubNone false true false.

Definition env_short_history : Env :=
  Build_Env [] [] [[HData (candle 2); HEnd]] [] None.

End Sample.

Section Load.

(** [self.o.get_granularity(timeframe, compression)]: the store's label of a
    data resolution, which live messages carry under "timeframe". *)
Variable get_granularity : Z -> Z -> string.

(** [date2num(datetime.fromtimestamp(x))]: the day number of an epoch time. *)
Variable stamp2num : Stamp -> float.

(** [self.qlive], as [start] sets it: the store's queue, the SUB socket, or
    None. *)
Inductive QLive := Queue | Socket.

Definition qlive (f : Feed) : option QLive :=
  match p_subscribe (p f) with
  | DATA => Some Queue
  | SUB => Some Socket
  | SubNone => None
  end.

(** [haslivedata].  [not self.subscribe] holds for None only, and
    [bool(self.qlive)] is True for a queue and for a socket. *)
Definition haslivedata (f : Feed) : bool :=
  if negb (match p_subscribe (p f) with SubNone => false | _ => true end)
  then false
  else match qlive f with Some _ => true | None => false end.

(** [self.o.price_data(...)]: the store records the request and hands out the
    queue of the historical messages. *)
Definition price_data (env : Env) (r : HistRequest) : list HistMsg * Env :=
  let env' q := Build_Env (q_livedata env) (data_sub env) q
                  (requests env ++ [r]) (backfill_from env) in
  match price_data_replies env with
  | [] => ([], env' [])
  | h :: rest => (h, env' rest)
  end.

(** [_st_start].  [num2date] is kept as the day number it converts. *)
Definition _st_start (f : Feed) (env : Env) : bool * Feed * Env :=
  let f := put_notification f DELAYED in
  let date_begin :=
    if (neg_infinity <? fromdate f)%float then Some (fromdate f) else None in
  let date_end :=
    if (todate f <? infinity)%float then Some (todate f) else None in
  let '(q, env) :=
    price_data env
      (Build_HistRequest (p_dataname (p f)) date_begin date_end
         (p_timeframe (p f)) (p_compression (p f)) (p_include_last (p f))) in
  let f := set_qhist f q in
  let f := set_state f _ST_HISTORBACK in
  (true, f, env).

(** [start] (lines 132-163), for a feed with the date bounds [fromdate] and
    [todate] that the base class takes from the parameters: the state is FROM
    when an external feed was given, and otherwise [_st_start] is run. *)
Definition start (ps : Params) (fromdate todate : float) (env : Env)
  : Feed * Env :=
  let f := Build_Feed ps _ST_OVER false fromdate todate [] 0 [] [] in
  match backfill_from env with
  | Some _ => (set_state f _ST_FROM, env)
  | None =>
      let f := set_state f _ST_START in
      let '(_, f, env) := _st_start f env in
      (f, env)
  end.

(** [_load_tick], on the [data] entry of its argument. *)
Definition _load_tick (f : Feed) (data : Payload) : Res (bool * Feed) :=
  match data with
  | Tick time_stamp _bid _ask =>
      ts <- float_of_int time_stamp ;;
      let dt := stamp2num (StampFloat (ts / 1000)%float) in
      last <- datetime_prev f ;;
      (* time already seen *)
      if (dt <=? last)%float then Ok (false, f)
      else
        let tick := if p_useask (p f) then _ask else _bid in
        f <- write_bar f (Build_Bar dt tick tick tick tick 0 0) ;;
        Ok (true, f)
  | Candle _ _ _ _ _ _ _ => Err ValueError
  end.

(** The local function [addspread] of [_load_candle]. *)
Definition addspread (f : Feed) (price : float) (s : Z) : Res float :=
  s <- float_of_int s ;;
  if endswith (p_dataname (p f)) "JPY"
  then Ok (round (sum [price; (s * 0.001)%float]) 3)
  else Ok (round (sum [price; (s * 0.00001)%float]) 5).

(** [_load_candle], on the [data] entry of its argument. *)
Definition _load_candle (f : Feed) (data : Payload) : Res (bool * Feed) :=
  match data with
  | Candle time_stamp _open _high _low _close _volume _spread =>
      let dt := stamp2num (StampInt time_stamp) in
      last <- datetime_prev f ;;
      (* time already seen *)
      if (dt <=? last)%float then Ok (false, f)
      else
        let price x := if negb (p_addspread (p f)) then Ok x
                       else addspread f x _spread in
        o <- price _open ;;
        h <- price _high ;;
        l <- price _low ;;
        c <- price _close ;;
        f <- write_bar f (Build_Bar dt o h l c _volume 0) ;;
        Ok (true, f)
  | Tick _ _ _ => Err ValueError
  end.

(** Modelled from the spec: the live queue belongs to the store (mt5store is
    not among the sources).  [self.qlive.get()] is a non-blocking pop, and an
    empty queue raises queue.Empty. *)
Definition qlive_get (env : Env) : Res (LiveMsg * Env) :=
  match q_livedata env with
  | [] => Err Empty
  | msg :: q =>
      Ok (msg, Build_Env q (data_sub env) (price_data_replies env) (requests env)
                 (backfill_from env))
  end.

(** [self.qlive.recv_string()] followed by [self.qlive.recv_json()] on the SUB
    socket: the topic and the message that follows it.  The socket has
    RCVTIMEO set, so a receive that gets nothing in that time raises Again. *)
Definition qlive_recv (env : Env) : Res (string * LiveMsg * Env) :=
  match data_sub env with
  | [] => Err Again
  | (topic, msg) :: q =>
      Ok (topic, msg,
          Build_Env (q_livedata env) q (price_data_replies env) (requests env)
            (backfill_from env))
  end.

(** Modelled from the spec: the historical cursor belongs to the store.
    [self.qhist.get()] yields the messages in arrival order; while the store
    has put nothing the caller waits ([None] here). *)
Definition qhist_get (f : Feed) : option (HistMsg * Feed) :=
  match qhist f with
  | [] => None
  | msg :: q => Some (msg, set_qhist f q)
  end.

(** [self.qhist.qsize()] *)
Definition qhist_qsize (f : Feed) : Z := Z.of_nat (List.length (qhist f)).

(** [self.p.backfill_from.next()]: True with the next bar of the external
    feed at its index 0, False when it has no more. *)
Definition backfill_from_next (env : Env) : Res (option Bar * Env) :=
  match backfill_from env with
  | None => Err AttributeError
  | Some [] => Ok (None, env)
  | Some (b :: rest) =>
      Ok (Some b,
          Build_Env (q_livedata env) (data_sub env) (price_data_replies env)
            (requests env) (Some rest))
  end.

(** How the loop goes on after [_load_tick] or [_load_candle] in the live
    state: [return True] when the bar was loaded, the next pass otherwise. *)
Definition loaded_or_continue (f : Feed) (env : Env) (r : Res (bool * Feed))
  : Ctl * Feed * Env :=
  match r with
  | Ok (true, f') => (Return PyTrue, f', env)
  | Ok (false, f') => (Continue, f', env)
  | Err e => (Raise e, f, env)
  end.

(** The [if msg:] block of the live state (lines 214-243). *)
Definition live_msg (f : Feed) (env : Env) (msg : LiveMsg) : Ctl * Feed * Env :=
  if negb (truthy msg) then (Continue, f, env)
  else
    match m_status msg with
    | None => (Raise (KeyError "status"), f, env)
    | Some status =>
        if String.eqb status "DISCONNECTED" then
          let f := put_notification f DISCONNECTED in
          let f := if negb (p_backfill (p f)) then set_state f _ST_OVER else f in
          let f := set_statelivereconn f true in
          (Continue, f, env)
        else if (String.eqb status "CONNECTED" && _statelivereconn f)%bool then
          let f := put_notification f CONNECTED in
          let f := set_statelivereconn f false in
          match (if 1 <? len f
                 then d <- datetime_prev f ;; Ok (set_fromdate f d)
                 else Ok f) with
          | Err e => (Raise e, f, env)
          | Ok f =>
              let '(_, f, env) := _st_start f env in
              (Continue, f, env)
          end
        else
          match m_timeframe msg with
          | None => (Raise (KeyError "timeframe"), f, env)
          | Some tf =>
              if negb (String.eqb tf
                         (get_granularity (p_timeframe (p f)) (p_compression (p f))))
              then (Continue, f, env)
              else
                match m_symbol msg with
                | None => (Raise (KeyError "symbol"), f, env)
                | Some symbol =>
                    if negb (String.eqb symbol (p_dataname (p f)))
                    then (Continue, f, env)
                    else
                      match m_data msg with
                      | None => (Raise (KeyError "data"), f, env)
                      | Some data =>
                          if String.eqb tf "TICK"
                          then loaded_or_continue f env (_load_tick f data)
                          else loaded_or_continue f env (_load_candle f data)
                      end
                end
          end
    end.

(** "Live is also wished - go for it" (lines 269-272). *)
Definition go_live (f : Feed) (env : Env) : Ctl * Feed * Env :=
  let f := set_state f _ST_LIVE in
  let f := put_notification f LIVE in
  (Continue, f, env).

(** The historical state after [msg = self.qhist.get()] and the update of
    [_historyback_queue_size] (lines 249-272). *)
Definition hist_msg (f : Feed) (env : Env) (msg : HistMsg) : Ctl * Feed * Env :=
  match msg with
  | HNone =>
      (* Situation not managed. Simply bail out *)
      let f := put_notification f DISCONNECTED in
      let f := set_state f _ST_OVER in
      (Return PyFalse, f, env)
  | HData data =>
      if p_timeframe (p f) =? 1 then  (* if timeframe is ticks *)
        match _load_tick f data with
        | Ok (true, f') => (Return PyTrue, f', env)
        | Ok (false, f') => go_live f' env
        | Err e => (Raise e, f, env)
        end
      else
        match _load_candle f data with
        | Ok (true, f') => (Return PyTrue, f', env)
        | Ok (false, f') => (Continue, f', env)  (* not loaded ... date may have been seen *)
        | Err e => (Raise e, f, env)
        end
  | HEnd =>
      (* End of histdata *)
      if p_historical (p f) then
        let f := put_notification f DISCONNECTED in
        let f := set_state f _ST_OVER in
        (Return PyFalse, f, env)
      else go_live f env
  end.

(** One pass through the body of [while True] (lines 202-292). *)
Definition loop_body (f : Feed) (env : Env) : Ctl * Feed * Env :=
  match _state f with
  | _ST_LIVE =>
      match p_subscribe (p f) with
      | DATA =>
          match qlive_get env with
          | Ok (msg, env') => live_msg f env' msg
          | Err Empty => (Return PyNone, f, env)   (* except queue.Empty *)
          | Err e => (Raise e, f, env)
          end
      | SUB =>
          match qlive_recv env with
          | Ok (topic, msg, env') => live_msg f env' msg
          | Err e => (Raise e, f, env)
          end
      | SubNone => (Continue, f, env)  (* msg = None *)
      end
  | _ST_HISTORBACK =>
      match qhist_get f with
      | None => (Blocks, f, env)
      | Some (msg, f) =>
          (* Queue size of historical price data *)
          let f := set_historyback_queue_size f (qhist_qsize f) in
          hist_msg f env msg
      end
  | _ST_FROM =>
      match backfill_from_next env with
      | Err e => (Raise e, f, env)
      | Ok (None, env) =>
          (* additional data source is consumed *)
          (Continue, set_state f _ST_START, env)
      | Ok (Some b, env) =>
          (* copy lines of the same name *)
          match write_bar f b with
          | Ok f' => (Return PyTrue, f', env)
          | Err e => (Raise e, f, env)
          end
      end
  | _ST_START =>
      let '(ok, f, env) := _st_start f env in
      if negb ok then (Return PyFalse, set_state f _ST_OVER, env)
      else (Continue, f, env)
  | _ST_OVER => (Continue, f, env)  (* no branch of the loop is for this state *)
  end.

(** The loop, [n] passes at most. *)
Fixpoint loop (n : nat) (f : Feed) (env : Env) : Poll * Feed * Env :=
  match n with
  | O => (Spins, f, env)
  | S n =>
      match loop_body f env with
      | (Continue, f, env) => loop n f env
      | (c, f, env) => (Done c, f, env)
      end
  end.

(** [_load] (lines 194-292). *)
Definition _load (n : nat) (f : Feed) (env : Env) : Poll * Feed * Env :=
  match _state f with
  | _ST_OVER => (Done (Return PyFalse), f, env)
  | _ST_LIVE =>
      if negb (haslivedata f) then (Done (Return PyFalse), f, env)
      else loop n f env
  | _ => loop n f env
  end.

(** ** The host engine

    The engine pulls bars one at a time: it opens a slot in the line buffers
    (forward), calls [_load], and takes the slot back (backwards) when no bar
    was loaded.  The date filters and the resampling of the engine are not
    part of this model. *)

Definition forward (f : Feed) : Feed := set_lines f (nan_bar :: lines f).

Definition backwards (f : Feed) : Feed := set_lines f (tl (lines f)).

Definition pull (n : nat) (f : Feed) (env : Env) : Poll * Feed * Env :=
  match _load n (forward f) env with
  | (Done (Return PyTrue), f', env') => (Done (Return PyTrue), f', env')
  | (r, f', env') => (r, backwards f', env')
  end.

(** A run of pulls.  Between two pulls the store works on its own, so each
    pull comes with the environment it finds. *)
Fixpoint pulls (script : list (nat * Env)) (f : Feed) : list Poll * Feed :=
  match script with
  | [] => ([], f)
  | (n, env) :: rest =>
      let '(r, f', _) := pull n f env in
      let '(rs, f'') := pulls rest f' in
      (r :: rs, f'')
  end.

(** The live transport delivers [msg], leaving [env']. *)
Definition receives (f : Feed) (env : Env) (msg : LiveMsg) (env' : Env) : Prop :=
  match p_subscribe (p f) with
  | DATA => qlive_get env = Ok (msg, env')
  | SUB => exists topic, qlive_recv env = Ok (topic, msg, env')
  | SubNone => False
  end.

(** Each bar is newer than the bar before it, as the staleness test of
    [_load_tick] and [_load_candle] reads "newer": not [dt <= last]. *)
Fixpoint ascending (bars : list Bar) : Prop :=
  match bars with
  | b :: (b' :: _) as older =>
      (datetime b <=? datetime b')%float = false /\ ascending older
  | _ => True
  end.

(** What a call of [_load_tick] or [_load_candle] that ends without an
    exception has done: nothing when it answers False; when it answers True,
    it has filled the open slot with a bar that the staleness test let
    through. *)
Definition built (f : Feed) (r : bool * Feed) : Prop :=
  let '(ok, f') := r in
  if ok then
    exists b cur older last,
      lines f = cur :: older /\ f' = set_lines f (b :: older) /\
      datetime_prev f = Ok last /\ (datetime b <=? last)%float = false
  else f' = f.

(** A pass or a poll that answers True has filled the open slot, either with
    a bar copied from the external feed (the state is still FROM) or with a
    bar that the staleness test let through. *)
Definition emits (f f' : Feed) : Prop :=
  exists b cur older,
    lines f = cur :: older /\ lines f' = b :: older /\
    (_state f' = _ST_FROM \/
     exists last, datetime_prev f = Ok last /\ (datetime b <=? last)%float = false).

(** What a pass leaves of the lines and of the state. *)
Definition pass_ok (f : Feed) (c : Ctl) (f' : Feed) : Prop :=
  (_state f <> _ST_FROM -> _state f' <> _ST_FROM) /\
  match c with
  | Return PyTrue => emits f f'
  | _ => lines f' = lines f
  end.

(** The moves between states that one pass of the loop can make. *)
Definition step_ok (s s' : FeedState) : bool :=
  match s, s' with
  | _ST_FROM, (_ST_FROM | _ST_START) => true
  | _ST_START, _ST_HISTORBACK => true
  | _ST_HISTORBACK, (_ST_HISTORBACK | _ST_LIVE | _ST_OVER) => true
  | _ST_LIVE, (_ST_LIVE | _ST_HISTORBACK | _ST_OVER) => true
  | _ST_OVER, _ST_OVER => true
  | _, _ => false
  end.

(** The states that a poll can end in, from the state it starts in. *)
Definition reach (s s' : FeedState) : bool :=
  match s, s' with
  | _ST_FROM, _ => true
  | _ST_START, _ST_FROM => false
  | _ST_START, _ => true
  | (_ST_HISTORBACK | _ST_LIVE), (_ST_HISTORBACK | _ST_LIVE | _ST_OVER) => true
  | _ST_OVER, _ST_OVER => true
  | _, _ => false
  end.

(** What no pass touches, and what a pass only adds to. *)
Definition frame (f f' : Feed) : Prop :=
  p f' = p f /\ todate f' = todate f /\
  exists added, notifs f' = notifs f ++ added.

(** What the value returned says about the state the feed is left in. *)
Definition ret_state (c : Ctl) (f' : Feed) : Prop :=
  match c with
  | Return PyTrue =>
      _state f' = _ST_FROM \/ _state f' = _ST_HISTORBACK \/ _state f' = _ST_LIVE
  | Return PyFalse => _state f' = _ST_OVER
  | Return PyNone => _state f' = _ST_LIVE /\ p_subscribe (p f') = DATA
  | _ => True
  end.

(** A message of the shared live queue that is for another feed: a data
    message, outside a reconnection, with another granularity or another
    instrument. *)
Definition other_feed (f : Feed) (msg : LiveMsg) : Prop :=
  exists status tf,
    m_status msg = Some status /\
    status <> "DISCONNECTED"%string /\
    (status = "CONNECTED"%string -> _statelivereconn f = false) /\
    m_timeframe msg = Some tf /\
    (tf <> get_granularity (p_timeframe (p f)) (p_compression (p f)) \/
     exists symbol, m_symbol msg = Some symbol /\ symbol <> p_dataname (p f)).

(** A historical candle that is not after [last]. *)
Definition stale_candle (last : float) (msg : HistMsg) : Prop :=
  exists ts o h l c v s,
    msg = HData (Candle ts o h l c v s) /\
    (stamp2num (StampInt ts) <=? last)%float = true.

(** The number of DELAYED among notifications. *)
Fixpoint count_delayed (l : list Notification) : nat :=
  match l with
  | [] => 0
  | DELAYED :: rest => S (count_delayed rest)
  | _ :: rest => count_delayed rest
  end.

(** What a pass adds: notifications to the feed and requests to the store, as
    many requests as there are DELAYED among the notifications. *)
Definition announced (f : Feed) (env : Env) (f' : Feed) (env' : Env) : Prop :=
  exists added reqs,
    notifs f' = notifs f ++ added /\
    requests env' = requests env ++ reqs /\
    List.length reqs = count_delayed added.

(** ** Properties *)

(** *** The loop *)

Lemma loop_body_live f env msg env' :
  _state f = _ST_LIVE ->
  receives f env msg env' ->
  loop_body f env = live_msg f env' msg.
Proof.
  unfold receives, loop_body. intros -> H.
  destruct (p_subscribe (p f)).
  - now rewrite H.
  - destruct H as [topic H]. now rewrite H.
  - contradiction.
Qed.

Lemma loop_continue n f env f' env' :
  loop_body f env = (Continue, f', env') ->
  loop (S n) f env = loop n f' env'.
Proof. simpl. now intros ->. Qed.

Lemma loop_done n f env c f' env' :
  loop_body f env = (c, f', env') ->
  c <> Continue ->
  loop (S n) f env = (Done c, f', env').
Proof. simpl. intros -> H. now destruct c. Qed.

(** Once the state is OVER inside the loop, no pass changes anything and no
    pass returns. *)
Lemma loop_over_spins n f env :
  _state f = _ST_OVER -> loop n f env = (Spins, f, env).
Proof.
  intros H. induction n as [|n IH]; [reflexivity|].
  simpl. unfold loop_body. rewrite H. exact IH.
Qed.

(** *** DISCONNECTED without backfill *)

Lemma receives_haslivedata f env msg env' :
  receives f env msg env' -> haslivedata f = true.
Proof.
  unfold receives, haslivedata, qlive. now destruct (p_subscribe (p f)).
Qed.

Lemma status_truthy msg s : m_status msg = Some s -> truthy msg = true.
Proof. unfold truthy. now intros ->. Qed.

(** C1 (as the code has it).  A poll in the LIVE state that receives a
    DISCONNECTED event with backfill off puts the DISCONNECTED notification
    and sets the state to OVER, but then takes the loop's [continue]: the
    loop has no branch for OVER, so the poll goes round for ever and returns
    nothing, whatever the number of passes it is given. *)
Theorem disconnected_without_backfill_spins f env msg env' :
  _state f = _ST_LIVE ->
  receives f env msg env' ->
  m_status msg = Some "DISCONNECTED"%string ->
  p_backfill (p f) = false ->
  forall n, exists f',
    _load (S n) f env = (Spins, f', env') /\
    _state f' = _ST_OVER /\
    notifs f' = notifs f ++ [DISCONNECTED].
Proof.
  intros Hst Hrecv Hmsg Hbf n.
  exists (set_statelivereconn (set_state (put_notification f DISCONNECTED) _ST_OVER) true).
  split; [|split; reflexivity].
  unfold _load. rewrite Hst, (receives_haslivedata _ _ _ _ Hrecv). simpl negb. cbv iota.
  erewrite loop_continue.
  - apply loop_over_spins. reflexivity.
  - rewrite (loop_body_live _ _ _ _ Hst Hrecv).
    unfold live_msg. rewrite (status_truthy _ _ Hmsg), Hmsg. simpl.
    now rewrite Hbf.
Qed.

(** *** Bar construction *)

Lemma load_tick_stale f ts bid ask x last :
  float_of_int ts = Ok x ->
  datetime_prev f = Ok last ->
  (stamp2num (StampFloat (x / 1000)) <=? last)%float = true ->
  _load_tick f (Tick ts bid ask) = Ok (false, f).
Proof.
  intros Hx Hlast Hle. unfold _load_tick. rewrite Hx. simpl.
  rewrite Hlast. simpl. now rewrite Hle.
Qed.

Lemma load_candle_stale f ts o h l c v s last :
  datetime_prev f = Ok last ->
  (stamp2num (StampInt ts) <=? last)%float = true ->
  _load_candle f (Candle ts o h l c v s) = Ok (false, f).
Proof.
  intros Hlast Hle. unfold _load_candle.
  rewrite Hlast. simpl. now rewrite Hle.
Qed.

Lemma write_bar_ok f b f' :
  write_bar f b = Ok f' ->
  exists cur older, lines f = cur :: older /\ f' = set_lines f (b :: older).
Proof.
  unfold write_bar. destruct (lines f) as [|cur older]; [discriminate|].
  intros [= <-]. now exists cur, older.
Qed.

Lemma load_tick_built f data r : _load_tick f data = Ok r -> built f r.
Proof.
  unfold _load_tick. destruct data as [ts bid ask|]; [|discriminate].
  destruct (float_of_int ts) as [x|]; [|discriminate]. simpl.
  destruct (datetime_prev f) as [last|] eqn:Hlast; [|discriminate]. simpl.
  destruct (_ <=? last)%float eqn:Hle.
  - intros [= <-]. reflexivity.
  - destruct (write_bar f _) as [f'|] eqn:Hw; [|discriminate]. simpl.
    intros [= <-]. apply write_bar_ok in Hw as (cur & older & Hl & ->).
    simpl. eexists _, cur, older, last. repeat split; eauto.
Qed.

Lemma load_candle_built f data r : _load_candle f data = Ok r -> built f r.
Proof.
  unfold _load_candle. destruct data as [|ts o h l c v s]; [discriminate|].
  destruct (datetime_prev f) as [last|] eqn:Hlast; [|discriminate]. simpl.
  destruct (_ <=? last)%float eqn:Hle.
  - intros [= <-]. reflexivity.
  - destruct (if negb _ then Ok o else _) as [o'|]; [|discriminate]. simpl.
    destruct (if negb _ then Ok h else _) as [h'|]; [|discriminate]. simpl.
    destruct (if negb _ then Ok l else _) as [l'|]; [|discriminate]. simpl.
    destruct (if negb _ then Ok c else _) as [c'|]; [|discriminate]. simpl.
    destruct (write_bar f _) as [f'|] eqn:Hw; [|discriminate]. simpl.
    intros [= <-]. apply write_bar_ok in Hw as (cur & older & Hl & ->).
    simpl. eexists _, cur, older, last. repeat split; eauto.
Qed.

(** C9.  A tick or a candle whose converted timestamp is not after the last
    one (index -1 of the datetime line) makes [_load_tick] or [_load_candle]
    answer False with the feed as it was, and whenever either answers False
    the feed, every line of it, is as it was. *)
Theorem stale_message_writes_nothing f last :
  datetime_prev f = Ok last ->
  (forall ts bid ask x,
      float_of_int ts = Ok x ->
      (stamp2num (StampFloat (x / 1000)) <=? last)%float = true ->
      _load_tick f (Tick ts bid ask) = Ok (false, f)) /\
  (forall ts o h l c v s,
      (stamp2num (StampInt ts) <=? last)%float = true ->
      _load_candle f (Candle ts o h l c v s) = Ok (false, f)) /\
  (forall data f', _load_tick f data = Ok (false, f') -> f' = f) /\
  (forall data f', _load_candle f data = Ok (false, f') -> f' = f).
Proof.
  intros Hlast. repeat split.
  - intros. eapply load_tick_stale; eauto.
  - intros. eapply load_candle_stale; eauto.
  - intros data f' H. exact (load_tick_built _ _ _ H).
  - intros data f' H. exact (load_candle_built _ _ _ H).
Qed.

(** *** The historical state *)

Lemma datetime_prev_lines f g :
  lines f = lines g -> datetime_prev f = datetime_prev g.
Proof. unfold datetime_prev. now intros ->. Qed.

Lemma loop_body_hist f env msg q :
  _state f = _ST_HISTORBACK ->
  qhist f = msg :: q ->
  loop_body f env =
  hist_msg (set_historyback_queue_size (set_qhist f q) (Z.of_nat (List.length q)))
    env msg.
Proof.
  unfold loop_body, qhist_get. now intros -> ->.
Qed.

(** C3 (as the code has it).  With the tick timeframe, a historical tick that
    the staleness test rejects does not leave the feed in HISTORBACK: only the
    candle branch has the [continue] of line 261, so the pass falls through to
    line 270, sets the state to LIVE and puts the LIVE notification. *)
Theorem stale_historical_tick_goes_live f env ts bid ask q x last :
  _state f = _ST_HISTORBACK ->
  p_timeframe (p f) = 1 ->
  qhist f = HData (Tick ts bid ask) :: q ->
  float_of_int ts = Ok x ->
  datetime_prev f = Ok last ->
  (stamp2num (StampFloat (x / 1000)) <=? last)%float = true ->
  exists f',
    loop_body f env = (Continue, f', env) /\
    _state f' = _ST_LIVE /\
    notifs f' = notifs f ++ [LIVE] /\
    lines f' = lines f.
Proof.
  intros Hst Htf Hq Hx Hlast Hle.
  rewrite (loop_body_hist _ _ _ _ Hst Hq).
  set (f1 := set_historyback_queue_size _ _).
  assert (H1 : _load_tick f1 (Tick ts bid ask) = Ok (false, f1)).
  { eapply load_tick_stale; eauto. }
  unfold hist_msg. change (p f1) with (p f). rewrite Htf. simpl Z.eqb. cbv iota.
  rewrite H1. unfold go_live. eexists. repeat split.
Qed.

(** The candle branch, for comparison: a stale historical candle is skipped
    and the feed stays in HISTORBACK. *)
Lemma stale_historical_candle_skipped f env ts o h l c v s q last :
  _state f = _ST_HISTORBACK ->
  p_timeframe (p f) <> 1 ->
  qhist f = HData (Candle ts o h l c v s) :: q ->
  datetime_prev f = Ok last ->
  (stamp2num (StampInt ts) <=? last)%float = true ->
  exists f',
    loop_body f env = (Continue, f', env) /\
    _state f' = _ST_HISTORBACK /\
    qhist f' = q /\
    notifs f' = notifs f /\
    lines f' = lines f.
Proof.
  intros Hst Htf Hq Hlast Hle.
  rewrite (loop_body_hist _ _ _ _ Hst Hq).
  set (f1 := set_historyback_queue_size _ _).
  assert (H1 : _load_candle f1 (Candle ts o h l c v s) = Ok (false, f1)).
  { eapply load_candle_stale; eauto. }
  unfold hist_msg. change (p f1) with (p f).
  apply Z.eqb_neq in Htf. rewrite Htf, H1.
  eexists. repeat split. exact Hst.
Qed.

(** *** The end of the history *)

Lemma backwards_forward f : backwards (forward f) = f.
Proof. now destruct f. Qed.

Lemma load_over n f env :
  _state f = _ST_OVER -> _load n f env = (Done (Return PyFalse), f, env).
Proof. unfold _load. now intros ->. Qed.

Lemma pull_over n f env :
  _state f = _ST_OVER -> pull n f env = (Done (Return PyFalse), f, env).
Proof.
  intros H. unfold pull. rewrite load_over by exact H.
  now rewrite backwards_forward.
Qed.

Lemma pulls_fixed r f script :
  (forall n env, pull n f env = (r, f, env)) ->
  pulls script f = (repeat r (List.length script), f).
Proof.
  intros H. induction script as [|[n env] rest IH]; [reflexivity|].
  simpl. now rewrite H, IH.
Qed.

(** OVER is terminal: every pull of every later run answers False and leaves
    the feed as it is. *)
Lemma pulls_over script f :
  _state f = _ST_OVER ->
  pulls script f = (repeat (Done (Return PyFalse)) (List.length script), f).
Proof.
  intros H. apply pulls_fixed. intros n env. now apply pull_over.
Qed.

(** C5.  When the historical queue yields its end marker in the HISTORBACK
    state: with [historical] set, the poll puts DISCONNECTED, sets the state to
    OVER and returns False, and every later pull returns False; without it,
    that pass of the loop sets the state to LIVE and puts one LIVE
    notification. *)
Theorem end_of_history f env q :
  _state f = _ST_HISTORBACK ->
  qhist f = HEnd :: q ->
  (p_historical (p f) = true ->
   exists f',
     (forall n, _load (S n) f env = (Done (Return PyFalse), f', env)) /\
     _state f' = _ST_OVER /\
     notifs f' = notifs f ++ [DISCONNECTED] /\
     forall script,
       pulls script f'
       = (repeat (Done (Return PyFalse)) (List.length script), f')) /\
  (p_historical (p f) = false ->
   exists f',
     loop_body f env = (Continue, f', env) /\
     _state f' = _ST_LIVE /\
     notifs f' = notifs f ++ [LIVE]).
Proof.
  intros Hst Hq. pose proof (loop_body_hist f env _ _ Hst Hq) as Hbody.
  unfold hist_msg in Hbody. cbn [p set_historyback_queue_size set_qhist] in Hbody.
  split; intros Hh; rewrite Hh in Hbody; eexists.
  - split; [|split; [|split]].
    + intros n. unfold _load. rewrite Hst.
      apply loop_done; [exact Hbody | discriminate].
    + reflexivity.
    + reflexivity.
    + intros script. now apply pulls_over.
  - split; [exact Hbody|]. split; reflexivity.
Qed.

(** *** Reconnection *)

(** The rewind of line 228-229: [fromdate] becomes the datetime at index -1
    when the buffers hold a bar besides the open slot. *)
Lemma rewind_fromdate f :
  exists f',
    (if 1 <? len f then d <- datetime_prev f ;; Ok (set_fromdate f d) else Ok f)
    = Ok f' /\
    p f' = p f /\ notifs f' = notifs f /\ todate f' = todate f /\
    lines f' = lines f /\ _statelivereconn f' = _statelivereconn f /\
    (forall cur last older,
        lines f = cur :: last :: older -> fromdate f' = datetime last) /\
    (List.length (lines f) <= 1 -> fromdate f' = fromdate f)%nat.
Proof.
  unfold len, datetime_prev.
  destruct (lines f) as [|cur [|last older]] eqn:Hl.
  - exists f. simpl. repeat split; try easy.
  - exists f. simpl. repeat split; try easy.
  - exists (set_fromdate f (datetime last)).
    replace (1 <? _) with true by (symmetry; apply Z.ltb_lt; simpl List.length; lia).
    simpl. repeat split; try easy.
    + now intros ? ? ? [= _ <- _].
    + simpl. lia.
Qed.

(** C4.  A pass in the LIVE state that receives a CONNECTED status while the
    reconnection flag is set puts CONNECTED, clears the flag, moves [fromdate]
    to the datetime of the last bar delivered (when there is one), and runs
    [_st_start]: DELAYED is put, the store gets a new request whose start is
    that [fromdate], and the feed is in HISTORBACK on the queue the store
    answered with. *)
Theorem reconnect_restarts_backfill f env msg env' :
  _state f = _ST_LIVE ->
  receives f env msg env' ->
  m_status msg = Some "CONNECTED"%string ->
  _statelivereconn f = true ->
  exists f' env'',
    loop_body f env = (Continue, f', env'') /\
    notifs f' = notifs f ++ [CONNECTED; DELAYED] /\
    _statelivereconn f' = false /\
    (forall cur last older,
        lines f = cur :: last :: older -> fromdate f' = datetime last) /\
    ((List.length (lines f) <= 1)%nat -> fromdate f' = fromdate f) /\
    requests env'' =
      requests env' ++
      [Build_HistRequest (p_dataname (p f))
         (if (neg_infinity <? fromdate f')%float then Some (fromdate f') else None)
         (if (todate f <? infinity)%float then Some (todate f) else None)
         (p_timeframe (p f)) (p_compression (p f)) (p_include_last (p f))] /\
    qhist f' = hd [] (price_data_replies env') /\
    _state f' = _ST_HISTORBACK.
Proof.
  intros Hst Hrecv Hmsg Hflag.
  rewrite (loop_body_live _ _ _ _ Hst Hrecv).
  unfold live_msg. rewrite (status_truthy _ _ Hmsg), Hmsg. simpl negb. cbv iota.
  simpl String.eqb. cbv iota.
  cbn [_statelivereconn put_notification]. rewrite Hflag. simpl andb. cbv iota.
  set (f1 := set_statelivereconn (put_notification f CONNECTED) false).
  destruct (rewind_fromdate f1) as (f2 & -> & Hp & Hn & Ht & Hl & Hr & Hd1 & Hd2).
  unfold _st_start, price_data.
  destruct (price_data_replies env') as [|reply rest] eqn:Hrep;
    (eexists; eexists; split; [reflexivity|]);
    cbn [notifs set_state set_qhist put_notification _statelivereconn fromdate
         requests qhist _state hd p todate];
    rewrite Hn, Hp, Ht, Hr; cbn [notifs p todate _statelivereconn f1
                                 set_statelivereconn put_notification];
    (repeat split; [now rewrite <- app_assoc | exact Hd1 | exact Hd2]).
Qed.

(** *** Live messages that are not for the feed *)

(** The pass goes on to the data part of the [if msg:] block when the status
    is not DISCONNECTED and is not a CONNECTED that ends a disconnection. *)
Lemma live_msg_data f env msg status :
  m_status msg = Some status ->
  status <> "DISCONNECTED"%string ->
  (status = "CONNECTED"%string -> _statelivereconn f = false) ->
  live_msg f env msg =
  match m_timeframe msg with
  | None => (Raise (KeyError "timeframe"), f, env)
  | Some tf =>
      if negb (String.eqb tf
                 (get_granularity (p_timeframe (p f)) (p_compression (p f))))
      then (Continue, f, env)
      else
        match m_symbol msg with
        | None => (Raise (KeyError "symbol"), f, env)
        | Some symbol =>
            if negb (String.eqb symbol (p_dataname (p f)))
            then (Continue, f, env)
            else
              match m_data msg with
              | None => (Raise (KeyError "data"), f, env)
              | Some data =>
                  if String.eqb tf "TICK"
                  then loaded_or_continue f env (_load_tick f data)
                  else loaded_or_continue f env (_load_candle f data)
              end
        end
  end.
Proof.
  intros Hmsg Hd Hc. unfold live_msg.
  rewrite (status_truthy _ _ Hmsg), Hmsg. simpl negb. cbv iota.
  apply String.eqb_neq in Hd. rewrite Hd.
  destruct (String.eqb status "CONNECTED") eqn:E; [|reflexivity].
  apply String.eqb_eq in E. now rewrite (Hc E).
Qed.

(** C6, amended.  In the LIVE state, a message that carries a status (other
    than DISCONNECTED, and other than the CONNECTED that ends a disconnection)
    and a timeframe is dropped, with the feed as it was and the loop going on,
    when its timeframe is not the feed's granularity, or its symbol is not the
    feed's instrument, or it is for the feed and [_load_tick] or [_load_candle]
    answers False. *)
Theorem live_message_not_for_feed_dropped f env msg env' status tf :
  _state f = _ST_LIVE ->
  receives f env msg env' ->
  m_status msg = Some status ->
  status <> "DISCONNECTED"%string ->
  (status = "CONNECTED"%string -> _statelivereconn f = false) ->
  m_timeframe msg = Some tf ->
  tf <> get_granularity (p_timeframe (p f)) (p_compression (p f)) \/
  (exists symbol, m_symbol msg = Some symbol /\ symbol <> p_dataname (p f)) \/
  (exists data f',
      m_symbol msg = Some (p_dataname (p f)) /\ m_data msg = Some data /\
      (if String.eqb tf "TICK" then _load_tick f data else _load_candle f data)
      = Ok (false, f')) ->
  loop_body f env = (Continue, f, env').
Proof.
  intros Hst Hrecv Hmsg Hd Hc Htf Hcase.
  rewrite (loop_body_live _ _ _ _ Hst Hrecv).
  rewrite (live_msg_data _ _ _ _ Hmsg Hd Hc), Htf.
  destruct (String.eqb tf (get_granularity _ _)) eqn:Etf; simpl negb; cbv iota.
  2: reflexivity.
  apply String.eqb_eq in Etf.
  destruct Hcase as [Hne | [(symbol & Hsym & Hne) | (data & f' & Hsym & Hdata & Hload)]].
  - contradiction.
  - rewrite Hsym. apply String.eqb_neq in Hne. now rewrite Hne.
  - rewrite Hsym, String.eqb_refl, Hdata. simpl negb. cbv iota.
    destruct (String.eqb tf "TICK"); rewrite Hload; simpl.
    + now rewrite (load_tick_built _ _ _ Hload).
    + now rewrite (load_candle_built _ _ _ Hload).
Qed.

(** *** Nothing to receive *)

(** With the store's queue, an empty queue ends the poll with None and
    changes nothing. *)
Lemma empty_queue_tries_later f env :
  _state f = _ST_LIVE ->
  p_subscribe (p f) = DATA ->
  q_livedata env = [] ->
  forall n, _load (S n) f env = (Done (Return PyNone), f, env).
Proof.
  intros Hst Hsub Hq n. unfold _load, haslivedata, qlive. rewrite Hst, Hsub. simpl.
  unfold loop_body, qlive_get. now rewrite Hst, Hsub, Hq.
Qed.

Lemma loaded_or_continue_not_none f env r c f' env' :
  loaded_or_continue f env r = (c, f', env') -> c <> Return PyNone.
Proof.
  unfold loaded_or_continue.
  destruct r as [[[|] f1]|e]; intros [= <- _ _]; discriminate.
Qed.

(** No path through the [if msg:] block returns None. *)
Lemma live_msg_not_none f env msg c f' env' :
  live_msg f env msg = (c, f', env') -> c <> Return PyNone.
Proof.
  unfold live_msg.
  destruct (negb (truthy msg)); [intros [= <- _ _]; discriminate|].
  destruct (m_status msg) as [status|]; [|intros [= <- _ _]; discriminate].
  destruct (String.eqb status "DISCONNECTED"); [intros [= <- _ _]; discriminate|].
  destruct (String.eqb status "CONNECTED" && _statelivereconn f)%bool.
  { destruct (if 1 <? len _ then _ else _) as [f1|e];
      [|intros [= <- _ _]; discriminate].
    destruct (_st_start f1 env) as [[ok f2] env2].
    intros [= <- _ _]; discriminate. }
  destruct (m_timeframe msg) as [tf|]; [|intros [= <- _ _]; discriminate].
  destruct (negb _); [intros [= <- _ _]; discriminate|].
  destruct (m_symbol msg) as [symbol|]; [|intros [= <- _ _]; discriminate].
  destruct (negb _); [intros [= <- _ _]; discriminate|].
  destruct (m_data msg) as [data|]; [|intros [= <- _ _]; discriminate].
  destruct (String.eqb tf "TICK"); apply loaded_or_continue_not_none.
Qed.

(** C7 (as the code has it).  With the SUB socket, a poll in the LIVE state
    that receives nothing before the receive timeout ends in zmq's Again: the
    SUB branch has no handler for it, unlike the queue branch with its
    [except queue.Empty].  And no pass of the SUB branch returns None, whatever
    the socket delivers. *)
Theorem sub_socket_never_tries_later f env :
  _state f = _ST_LIVE ->
  p_subscribe (p f) = SUB ->
  (data_sub env = [] ->
   forall n, _load (S n) f env = (Done (Raise Again), f, env)) /\
  (forall c f' env', loop_body f env = (c, f', env') -> c <> Return PyNone).
Proof.
  intros Hst Hsub. split.
  - intros Hq n. unfold _load, haslivedata, qlive. rewrite Hst, Hsub. simpl.
    unfold loop_body, qlive_recv. now rewrite Hst, Hsub, Hq.
  - intros c f' env'. unfold loop_body, qlive_recv. rewrite Hst, Hsub.
    destruct (data_sub env) as [|[topic msg] q].
    + intros [= <- _ _]; discriminate.
    + apply live_msg_not_none.
Qed.

(** *** No subscription *)

(** In the loop itself the LIVE state is not tested for live data: with
    [subscribe] None a poll that is in the loop when the state becomes LIVE
    goes round with [msg = None] and does not return. *)
Lemma no_subscription_loop_spins n f env :
  p_subscribe (p f) = SubNone ->
  _state f = _ST_LIVE ->
  loop n f env = (Spins, f, env).
Proof.
  intros Hsub Hst. induction n as [|n IH]; [reflexivity|].
  simpl. unfold loop_body. now rewrite Hst, Hsub.
Qed.

(** X15.  With [subscribe] None and without [historical], the poll that
    finds the end of the history sets the state to LIVE and never returns. *)
Lemma no_subscription_end_of_history_spins n f env q :
  p_subscribe (p f) = SubNone ->
  p_historical (p f) = false ->
  _state f = _ST_HISTORBACK ->
  qhist f = HEnd :: q ->
  exists f', _load (S n) f env = (Spins, f', env) /\ _state f' = _ST_LIVE.
Proof.
  intros Hsub Hh Hst Hq. unfold _load. rewrite Hst.
  pose proof (loop_body_hist f env _ _ Hst Hq) as Hbody.
  unfold hist_msg, go_live in Hbody.
  cbn [p set_historyback_queue_size set_qhist] in Hbody. rewrite Hh in Hbody.
  eexists. split.
  - erewrite loop_continue by exact Hbody.
    now apply no_subscription_loop_spins.
  - reflexivity.
Qed.

(** The test of lines 198-199 taken alone.  If a poll did start in the LIVE
    state with [subscribe] None, it would return False at once with the feed
    and the environment as they were.  No run from [start] gets there, as is
    shown further down. *)
Theorem no_subscription_live_ends f env :
  p_subscribe (p f) = SubNone ->
  _state f = _ST_LIVE ->
  haslivedata f = false /\
  (forall n, _load n f env = (Done (Return PyFalse), f, env)) /\
  (forall script,
      pulls script f = (repeat (Done (Return PyFalse)) (List.length script), f)) /\
  loop_body f env = (Continue, f, env).
Proof.
  intros Hsub Hst.
  assert (Hload : forall n g e, p_subscribe (p g) = SubNone -> _state g = _ST_LIVE ->
                    _load n g e = (Done (Return PyFalse), g, e)).
  { intros n g e Hg1 Hg2. unfold _load, haslivedata, qlive. now rewrite Hg2, Hg1. }
  repeat split.
  - unfold haslivedata, qlive. now rewrite Hsub.
  - intros n. now apply Hload.
  - intros script. apply pulls_fixed. intros n e. unfold pull.
    rewrite Hload by assumption. now rewrite backwards_forward.
  - unfold loop_body. now rewrite Hst, Hsub.
Qed.

(** *** Comparing floats *)

Lemma SFcompare_antisym x y :
  SFcompare y x = option_map CompOpp (SFcompare x y).
Proof.
  destruct x as [sx|sx| |sx mx ex], y as [sy|sy| |sy my ey]; simpl;
    try reflexivity;
    try (destruct sx; reflexivity); try (destruct sy; reflexivity);
    try (destruct sx, sy; reflexivity).
  destruct sx, sy; try reflexivity; f_equal;
    rewrite (Z.compare_antisym ex ey);
    destruct (ex ?= ey) eqn:E; simpl; try reflexivity;
    change (Pcompare mx my Eq) with (Pos.compare mx my);
    change (Pcompare my mx Eq) with (Pos.compare my mx);
    rewrite (Pos.compare_antisym mx my); try reflexivity;
    now destruct (Pos.compare mx my).
Qed.

Lemma is_nan_false x : PrimFloat.is_nan x = false -> Prim2SF x <> S754_nan.
Proof.
  unfold PrimFloat.is_nan. rewrite eqb_spec. intros H E. rewrite E in H.
  discriminate.
Qed.

(** For numbers, "not x <= y" is "y < x". *)
Lemma not_leb_ltb x y :
  PrimFloat.is_nan x = false ->
  PrimFloat.is_nan y = false ->
  (x <=? y)%float = false ->
  (y <? x)%float = true.
Proof.
  intros Hx Hy. apply is_nan_false in Hx, Hy.
  rewrite leb_spec, ltb_spec. unfold SFleb, SFltb.
  rewrite (SFcompare_antisym (Prim2SF x) (Prim2SF y)).
  destruct (SFcompare (Prim2SF x) (Prim2SF y)) as [[ | | ]|] eqn:E;
    simpl; try easy.
  destruct (Prim2SF x), (Prim2SF y); simpl in E; congruence.
Qed.

(** *** Order of the bars *)

Lemma built_pass f env r c f' env' :
  built f r ->
  loaded_or_continue f env (Ok r) = (c, f', env') ->
  pass_ok f c f'.
Proof.
  destruct r as [[|] f1]; simpl; intros H [= <- <- _].
  - destruct H as (b & cur & older & last & Hl & -> & Hlast & Hle).
    split; [easy|]. exists b, cur, older. repeat split; eauto.
  - subst f1. now split.
Qed.

Lemma live_msg_pass f env msg c f' env' :
  live_msg f env msg = (c, f', env') -> pass_ok f c f'.
Proof.
  unfold live_msg.
  destruct (negb (truthy msg)); [intros [= <- <- _]; now split|].
  destruct (m_status msg) as [status|]; [|intros [= <- <- _]; now split].
  destruct (String.eqb status "DISCONNECTED").
  { intros [= <- <- _]. cbn [p put_notification].
    destruct (negb (p_backfill (p f))); now split. }
  destruct (String.eqb status "CONNECTED" && _statelivereconn f)%bool.
  { destruct (rewind_fromdate (set_statelivereconn (put_notification f CONNECTED) false))
      as (f2 & -> & _ & _ & _ & Hl & _).
    unfold _st_start, price_data.
    destruct (price_data_replies env); intros [= <- <- _]; now split. }
  destruct (m_timeframe msg) as [tf|]; [|intros [= <- <- _]; now split].
  destruct (negb _); [intros [= <- <- _]; now split|].
  destruct (m_symbol msg) as [symbol|]; [|intros [= <- <- _]; now split].
  destruct (negb _); [intros [= <- <- _]; now split|].
  destruct (m_data msg) as [data|]; [|intros [= <- <- _]; now split].
  destruct (String.eqb tf "TICK").
  - destruct (_load_tick f data) as [r|e] eqn:E.
    + apply built_pass. now apply load_tick_built in E.
    + intros [= <- <- _]. now split.
  - destruct (_load_candle f data) as [r|e] eqn:E.
    + apply built_pass. now apply load_candle_built in E.
    + intros [= <- <- _]. now split.
Qed.

Lemma hist_msg_pass f env msg c f' env' :
  hist_msg f env msg = (c, f', env') -> pass_ok f c f'.
Proof.
  unfold hist_msg, go_live. destruct msg as [|data|].
  - intros [= <- <- _]. now split.
  - destruct (p_timeframe (p f) =? 1).
    + destruct (_load_tick f data) as [[[|] f1]|e] eqn:E;
        try apply load_tick_built in E; simpl in E; intros [= <- <- _].
      * destruct E as (b & cur & older & last & Hl & -> & Hlast & Hle).
        split; [easy|]. exists b, cur, older. repeat split; eauto.
      * subst f1. now split.
      * now split.
    + destruct (_load_candle f data) as [[[|] f1]|e] eqn:E;
        try apply load_candle_built in E; simpl in E; intros [= <- <- _].
      * destruct E as (b & cur & older & last & Hl & -> & Hlast & Hle).
        split; [easy|]. exists b, cur, older. repeat split; eauto.
      * subst f1. now split.
      * now split.
  - destruct (p_historical (p f)); intros [= <- <- _]; now split.
Qed.

Lemma loop_body_pass f env c f' env' :
  loop_body f env = (c, f', env') -> pass_ok f c f'.
Proof.
  unfold loop_body. destruct (_state f) eqn:Hst.
  - (* FROM *)
    unfold backfill_from_next.
    destruct (backfill_from env) as [[|b rest]|].
    + intros [= <- <- _]. now split.
    + destruct (write_bar f b) as [f1|e] eqn:Hw; intros [= <- <- _].
      * apply write_bar_ok in Hw as (cur & older & Hl & ->).
        split; [now intros []|]. exists b, cur, older. repeat split; eauto.
      * now split.
    + intros [= <- <- _]. now split.
  - (* START *)
    unfold _st_start, price_data.
    destruct (price_data_replies env); intros [= <- <- _]; now split.
  - (* LIVE *)
    unfold qlive_get, qlive_recv. destruct (p_subscribe (p f)).
    + destruct (q_livedata env) as [|msg q].
      * intros [= <- <- _]. now split.
      * intros H. exact (live_msg_pass _ _ _ _ _ _ H).
    + destruct (data_sub env) as [|[topic msg] q].
      * intros [= <- <- _]. now split.
      * intros H. exact (live_msg_pass _ _ _ _ _ _ H).
    + intros [= <- <- _]. now split.
  - (* HISTORBACK *)
    unfold qhist_get. destruct (qhist f) as [|msg q].
    + intros [= <- <- _]. now split.
    + intros H. exact (hist_msg_pass _ _ _ _ _ _ H).
  - (* OVER *)
    intros [= <- <- _]. now split.
Qed.

(** The same for a poll: passes that continue leave the lines alone, so the
    pass that ends the loop finds them as the poll found them. *)
Lemma loop_pass n f env r f' env' :
  loop n f env = (r, f', env') ->
  (_state f <> _ST_FROM -> _state f' <> _ST_FROM) /\
  match r with
  | Done (Return PyTrue) => emits f f'
  | _ => lines f' = lines f
  end.
Proof.
  revert f env. induction n as [|n IH]; intros f env.
  - intros [= <- <- _]. now split.
  - simpl. destruct (loop_body f env) as [[c f1] env1] eqn:Hbody.
    apply loop_body_pass in Hbody as [Hs Hl].
    destruct c as [[| |]| |e|]; try (intros [= <- <- _]; now split).
    intros H. apply IH in H as [Hs' Hl']. split; [auto|].
    destruct r as [[[| |]| |e|]|]; try congruence.
    destruct Hl' as (b & cur & older & H1 & H2 & H3).
    exists b, cur, older. rewrite <- Hl. repeat split; auto.
    destruct H3 as [H3|(last & H3 & H4)]; [now left|right].
    exists last. now rewrite <- (datetime_prev_lines f1 f Hl).
Qed.

Lemma load_pass n f env r f' env' :
  _load n f env = (r, f', env') ->
  (_state f <> _ST_FROM -> _state f' <> _ST_FROM) /\
  match r with
  | Done (Return PyTrue) => emits f f'
  | _ => lines f' = lines f
  end.
Proof.
  unfold _load. destruct (_state f) eqn:Hst;
    try (intros H; apply loop_pass in H; now rewrite Hst in H).
  - destruct (negb (haslivedata f)).
    + intros [= <- <- _]. split; [now rewrite Hst|reflexivity].
    + intros H; apply loop_pass in H. now rewrite Hst in H.
  - intros [= <- <- _]. split; [now rewrite Hst|reflexivity].
Qed.

(** C2, amended.  A pull that delivers a bar built by [_load_tick] or
    [_load_candle] (the state after it is not FROM) adds it on top of the
    bars delivered before, whatever their origin, and its datetime is not
    less than or equal to the datetime of the bar before it: for numbers,
    strictly greater.  A tick or a candle whose datetime is less than or equal
    to the last one is rejected.  (The bars copied in the FROM state are not
    compared with anything.) *)
Theorem built_bar_is_newer :
  (forall n f env f' env',
      pull n f env = (Done (Return PyTrue), f', env') ->
      _state f' <> _ST_FROM ->
      exists b,
        lines f' = b :: lines f /\
        forall b0 older,
          lines f = b0 :: older ->
          (datetime b <=? datetime b0)%float = false /\
          (PrimFloat.is_nan (datetime b) = false ->
           PrimFloat.is_nan (datetime b0) = false ->
           (datetime b0 <? datetime b)%float = true)) /\
  (forall f last,
      datetime_prev f = Ok last ->
      (forall ts bid ask x,
          float_of_int ts = Ok x ->
          (stamp2num (StampFloat (x / 1000)) <=? last)%float = true ->
          _load_tick f (Tick ts bid ask) = Ok (false, f)) /\
      (forall ts o h l c v s,
          (stamp2num (StampInt ts) <=? last)%float = true ->
          _load_candle f (Candle ts o h l c v s) = Ok (false, f))).
Proof.
  split.
  - intros n f env f' env'. unfold pull.
    destruct (_load n (forward f) env) as [[r f1] env1] eqn:Hload.
    apply load_pass in Hload as [_ Hl].
    destruct r as [[[| |]| |e|]|]; intros [= <- _]; try discriminate.
    intros Hst.
    destruct Hl as (b & cur & older & H1 & H2 & [H3|(last & H3 & H4)]);
      [contradiction|].
    simpl in H1. injection H1 as _ <-. exists b. split; [exact H2|].
    intros b0 older Hb0. unfold datetime_prev in H3. simpl in H3.
    rewrite Hb0 in H3. injection H3 as <-.
    split; [exact H4|]. intros Hn Hn0. now apply not_leb_ltb.
  - intros f last Hlast. split; intros.
    + eapply load_tick_stale; eauto.
    + eapply load_candle_stale; eauto.
Qed.

Lemma pull_ascending n f env r f' env' :
  pull n f env = (r, f', env') ->
  _state f <> _ST_FROM ->
  ascending (lines f) ->
  _state f' <> _ST_FROM /\ ascending (lines f').
Proof.
  unfold pull.
  destruct (_load n (forward f) env) as [[r1 f1] env1] eqn:Hload.
  apply load_pass in Hload as [Hs Hl]. intros H Hst Hasc.
  specialize (Hs Hst).
  assert (Hback : lines f1 = lines (forward f) ->
                  _state (backwards f1) <> _ST_FROM /\
                  ascending (lines (backwards f1))).
  { intros E. split; [exact Hs|]. simpl. now rewrite E. }
  destruct r1 as [[[| |]| |e|]|]; injection H as <- <- _; auto.
  split; [exact Hs|].
  destruct Hl as (b & cur & older & H1 & H2 & [H3|(last & H3 & H4)]);
    [contradiction|].
  simpl in H1. injection H1 as _ <-. rewrite H2.
  unfold datetime_prev in H3. simpl in H3.
  destruct (lines f) as [|b0 rest]; [exact I|].
  injection H3 as <-. now split.
Qed.

(** Without an external feed the state is never FROM, and then every run of
    pulls keeps the bars in ascending order of datetime. *)
Lemma pulls_ascending script f rs f' :
  pulls script f = (rs, f') ->
  _state f <> _ST_FROM ->
  ascending (lines f) ->
  _state f' <> _ST_FROM /\ ascending (lines f').
Proof.
  revert f rs. induction script as [|[n env] rest IH]; intros f rs.
  - intros [= _ <-]. now split.
  - simpl. destruct (pull n f env) as [[r f1] env1] eqn:Hpull.
    destruct (pulls rest f1) as [rs1 f2] eqn:Hrest.
    intros [= _ <-] Hst Hasc.
    destruct (pull_ascending _ _ _ _ _ _ Hpull Hst Hasc) as [Hst1 Hasc1].
    exact (IH _ _ Hrest Hst1 Hasc1).
Qed.

(** X4.  From [start] without an external feed, the bars that any run of
    pulls has delivered are in ascending order of datetime. *)
Lemma run_ascending ps fromdate todate env f0 env0 script rs f :
  backfill_from env = None ->
  start ps fromdate todate env = (f0, env0) ->
  pulls script f0 = (rs, f) ->
  ascending (lines f).
Proof.
  unfold start, _st_start, price_data. intros -> Hstart Hrun.
  assert (H0 : _state f0 <> _ST_FROM /\ ascending (lines f0)).
  { destruct (price_data_replies env); injection Hstart as <- _;
      (split; [discriminate|exact I]). }
  destruct H0 as [Hst Hasc].
  exact (proj2 (pulls_ascending _ _ _ _ Hrun Hst Hasc)).
Qed.

(** *** Spread *)

(** C8.  A candle that is built with [addspread] set has, in each of open,
    high, low and close, the price plus the spread times 0.001 rounded to 3
    decimals when the name of the instrument ends in JPY, and the price plus
    the spread times 0.00001 rounded to 5 decimals otherwise (the sum as
    Python's [sum] adds it, from 0).  For EURUSD, 1.1 with a spread of 20 gives
    1.1002; for USDJPY, 110.0 with a spread of 20 gives 110.02. *)
Theorem spread_adjusted_candle :
  (forall f ts o h l c v s sf last,
      p_addspread (p f) = true ->
      float_of_int s = Ok sf ->
      datetime_prev f = Ok last ->
      (stamp2num (StampInt ts) <=? last)%float = false ->
      let adj x :=
        if endswith (p_dataname (p f)) "JPY"
        then round (0 + x + sf * 0.001)%float 3
        else round (0 + x + sf * 0.00001)%float 5 in
      exists f',
        _load_candle f (Candle ts o h l c v s) = Ok (true, f') /\
        hd_error (lines f')
        = Some (Build_Bar (stamp2num (StampInt ts)) (adj o) (adj h) (adj l) (adj c)
                  v 0)) /\
  addspread (Sample.feed (Sample.params "EURUSD" 4 DATA false true true)
               _ST_LIVE false [] [nan_bar]) 1.1 20 = Ok 1.1002%float /\
  addspread (Sample.feed (Sample.params "USDJPY" 4 DATA false true true)
               _ST_LIVE false [] [nan_bar]) 110.0 20 = Ok 110.02%float.
Proof.
  split; [|split; vm_compute; reflexivity].
  intros f ts o h l c v s sf last Hadd Hs Hlast Hle adj.
  unfold _load_candle. rewrite Hlast. simpl bind. rewrite Hle, Hadd.
  simpl negb. cbv iota. unfold addspread. rewrite Hs. simpl bind.
  unfold datetime_prev in Hlast. unfold write_bar.
  destruct (lines f) as [|cur older]; [discriminate|].
  unfold adj, sum. simpl fold_left.
  destruct (endswith (p_dataname (p f)) "JPY"); simpl; eexists; split; reflexivity.
Qed.

(** *** What every pass keeps *)

Ltac solve_frame :=
  unfold frame; cbn [p todate notifs set_state set_statelivereconn set_fromdate
                       set_qhist set_historyback_queue_size set_lines
                       put_notification];
  split; [reflexivity|split; [reflexivity|]];
  first [ exists []; symmetry; apply app_nil_r
        | eexists; reflexivity
        | eexists; rewrite <- app_assoc; reflexivity ].

Lemma built_same f ok f' :
  built f (ok, f') ->
  p f' = p f /\ todate f' = todate f /\ notifs f' = notifs f /\
  _state f' = _state f.
Proof.
  destruct ok; simpl.
  - intros (b & cur & older & last & _ & -> & _). now repeat split.
  - intros ->. now repeat split.
Qed.

Lemma loaded_or_continue_facts f env r c f' env' :
  _state f = _ST_LIVE ->
  built f r ->
  loaded_or_continue f env (Ok r) = (c, f', env') ->
  frame f f' /\ step_ok (_state f) (_state f') = true /\ ret_state c f'.
Proof.
  intros Hst Hb. destruct r as [ok f1].
  destruct (built_same _ _ _ Hb) as (Hp & Ht & Hn & Hs).
  assert (Hf : frame f f1).
  { split; [exact Hp|split; [exact Ht|]]. exists []. now rewrite app_nil_r. }
  destruct ok; simpl; intros [= <- <- _]; (split; [exact Hf|]);
    unfold ret_state; rewrite Hs, Hst; split; simpl; auto.
Qed.

Lemma live_msg_facts f env msg c f' env' :
  _state f = _ST_LIVE ->
  live_msg f env msg = (c, f', env') ->
  frame f f' /\ step_ok (_state f) (_state f') = true /\ ret_state c f'.
Proof.
  intros Hst. unfold live_msg.
  assert (Hsame : frame f f /\ step_ok (_state f) (_state f) = true).
  { split; [solve_frame|now rewrite Hst]. }
  destruct Hsame as [Hf Hs].
  destruct (negb (truthy msg)); [intros [= <- <- _]; exact (conj Hf (conj Hs I))|].
  destruct (m_status msg) as [status|]; [|intros [= <- <- _]; exact (conj Hf (conj Hs I))].
  destruct (String.eqb status "DISCONNECTED").
  { intros [= <- <- _]. cbn [p put_notification].
    destruct (negb (p_backfill (p f))); (split; [solve_frame|]);
      simpl; rewrite Hst; now split. }
  destruct (String.eqb status "CONNECTED" && _statelivereconn f)%bool.
  { destruct (rewind_fromdate (set_statelivereconn (put_notification f CONNECTED) false))
      as (f2 & -> & Hp & Hn & Ht & _).
    unfold _st_start, price_data.
    destruct (price_data_replies env); intros [= <- <- _];
      (split; [|simpl; rewrite Hst; now split]);
      unfold frame; cbn [p todate notifs set_state set_qhist put_notification];
      rewrite Hp, Ht, Hn; cbn [p todate notifs set_statelivereconn put_notification];
      (split; [reflexivity|split; [reflexivity|]]);
      eexists; rewrite <- app_assoc; reflexivity. }
  destruct (m_timeframe msg) as [tf|]; [|intros [= <- <- _]; exact (conj Hf (conj Hs I))].
  destruct (negb _); [intros [= <- <- _]; exact (conj Hf (conj Hs I))|].
  destruct (m_symbol msg) as [symbol|]; [|intros [= <- <- _]; exact (conj Hf (conj Hs I))].
  destruct (negb _); [intros [= <- <- _]; exact (conj Hf (conj Hs I))|].
  destruct (m_data msg) as [data|]; [|intros [= <- <- _]; exact (conj Hf (conj Hs I))].
  destruct (String.eqb tf "TICK").
  - destruct (_load_tick f data) as [r|e] eqn:E.
    + apply loaded_or_continue_facts; [exact Hst|]. now apply load_tick_built in E.
    + intros [= <- <- _]. exact (conj Hf (conj Hs I)).
  - destruct (_load_candle f data) as [r|e] eqn:E.
    + apply loaded_or_continue_facts; [exact Hst|]. now apply load_candle_built in E.
    + intros [= <- <- _]. exact (conj Hf (conj Hs I)).
Qed.

Lemma hist_msg_facts f env msg c f' env' :
  _state f = _ST_HISTORBACK ->
  hist_msg f env msg = (c, f', env') ->
  frame f f' /\ step_ok (_state f) (_state f') = true /\ ret_state c f'.
Proof.
  intros Hst. unfold hist_msg, go_live.
  assert (Hsame : frame f f /\ step_ok (_state f) (_state f) = true).
  { split; [solve_frame|now rewrite Hst]. }
  destruct Hsame as [Hf Hs].
  assert (Hbuilt : forall ok f1, built f (ok, f1) ->
            frame f f1 /\ _state f1 = _ST_HISTORBACK).
  { intros ok f1 Hb. destruct (built_same _ _ _ Hb) as (Hp & Ht & Hn & Hs1).
    split; [|now rewrite Hs1].
    split; [exact Hp|split; [exact Ht|]]. exists []. now rewrite app_nil_r. }
  destruct msg as [|data|].
  - intros [= <- <- _]. split; [solve_frame|]. simpl. now rewrite Hst.
  - destruct (p_timeframe (p f) =? 1).
    + destruct (_load_tick f data) as [[[|] f1]|e] eqn:E;
        try apply load_tick_built in E; intros [= <- <- _].
      * destruct (Hbuilt _ _ E) as [H1 H2]. split; [exact H1|].
        unfold ret_state. rewrite H2, Hst. simpl. auto.
      * simpl in E. subst f1. split; [solve_frame|]. simpl. now rewrite Hst.
      * exact (conj Hf (conj Hs I)).
    + destruct (_load_candle f data) as [[[|] f1]|e] eqn:E;
        try apply load_candle_built in E; intros [= <- <- _].
      * destruct (Hbuilt _ _ E) as [H1 H2]. split; [exact H1|].
        unfold ret_state. rewrite H2, Hst. simpl. auto.
      * simpl in E. subst f1. exact (conj Hf (conj Hs I)).
      * exact (conj Hf (conj Hs I)).
  - destruct (p_historical (p f)); intros [= <- <- _];
      (split; [solve_frame|]); simpl; now rewrite Hst.
Qed.

Lemma loop_body_facts f env c f' env' :
  loop_body f env = (c, f', env') ->
  frame f f' /\ step_ok (_state f) (_state f') = true /\ ret_state c f'.
Proof.
  unfold loop_body.
  assert (Hf : frame f f) by solve_frame.
  destruct (_state f) eqn:Hst.
  - (* FROM *)
    unfold backfill_from_next.
    destruct (backfill_from env) as [[|b rest]|].
    + intros [= <- <- _]. split; [solve_frame|]. now split.
    + destruct (write_bar f b) as [f1|e] eqn:Hw; intros [= <- <- _].
      * apply write_bar_ok in Hw as (cur & older & Hl & ->).
        split; [solve_frame|]. simpl. rewrite Hst. auto.
      * rewrite Hst. exact (conj Hf (conj eq_refl I)).
    + intros [= <- <- _]. rewrite Hst. exact (conj Hf (conj eq_refl I)).
  - (* START *)
    unfold _st_start, price_data.
    destruct (price_data_replies env); intros [= <- <- _];
      (split; [solve_frame|now split]).
  - (* LIVE *)
    unfold qlive_get, qlive_recv. destruct (p_subscribe (p f)) eqn:Hsub.
    + destruct (q_livedata env) as [|msg q].
      * intros [= <- <- _]. rewrite Hst. split; [exact Hf|]. now repeat split.
      * intros H. apply live_msg_facts in H; [|exact Hst]. now rewrite Hst in H.
    + destruct (data_sub env) as [|[topic msg] q].
      * intros [= <- <- _]. rewrite Hst. exact (conj Hf (conj eq_refl I)).
      * intros H. apply live_msg_facts in H; [|exact Hst]. now rewrite Hst in H.
    + intros [= <- <- _]. rewrite Hst. exact (conj Hf (conj eq_refl I)).
  - (* HISTORBACK *)
    unfold qhist_get. destruct (qhist f) as [|msg q].
    + intros [= <- <- _]. rewrite Hst. exact (conj Hf (conj eq_refl I)).
    + intros H. apply hist_msg_facts in H; [|exact Hst].
      destruct H as ((Hp & Ht & Hn) & Hs & Hr).
      cbn [p todate notifs _state set_qhist set_historyback_queue_size] in *.
      rewrite Hst in Hs. now repeat split.
  - (* OVER *)
    intros [= <- <- _]. rewrite Hst. exact (conj Hf (conj eq_refl I)).
Qed.

Lemma frame_trans f g h : frame f g -> frame g h -> frame f h.
Proof.
  intros (Hp & Ht & a & Ha) (Hp' & Ht' & b & Hb).
  split; [congruence|split; [congruence|]].
  exists (a ++ b). now rewrite Hb, Ha, app_assoc.
Qed.

Lemma reach_refl s : reach s s = true.
Proof. now destruct s. Qed.

Lemma step_reach s s' s'' :
  step_ok s s' = true -> reach s' s'' = true -> reach s s'' = true.
Proof. now destruct s, s', s''. Qed.

Lemma loop_facts n f env r f' env' :
  loop n f env = (r, f', env') ->
  frame f f' /\ reach (_state f) (_state f') = true /\
  match r with Done c => ret_state c f' | Spins => True end.
Proof.
  revert f env. induction n as [|n IH]; intros f env.
  - intros [= <- <- _]. split; [solve_frame|]. split; [apply reach_refl|exact I].
  - simpl. destruct (loop_body f env) as [[c f1] env1] eqn:Hbody.
    apply loop_body_facts in Hbody as (Hf & Hs & Hr).
    assert (Hone : reach (_state f) (_state f1) = true).
    { eapply step_reach; [exact Hs|apply reach_refl]. }
    destruct c as [[| |]| |e|];
      try (intros [= <- <- _]; exact (conj Hf (conj Hone Hr))).
    intros H. apply IH in H as (Hf' & Hs' & Hr').
    split; [eapply frame_trans; eauto|]. split; [|exact Hr'].
    eapply step_reach; eauto.
Qed.

Lemma load_facts n f env r f' env' :
  _load n f env = (r, f', env') ->
  frame f f' /\ reach (_state f) (_state f') = true /\
  match r with
  | Done (Return PyFalse) =>
      _state f' = _ST_OVER \/
      (_state f' = _ST_LIVE /\ p_subscribe (p f') = SubNone)
  | Done c => ret_state c f'
  | Spins => True
  end.
Proof.
  assert (Hloop : loop n f env = (r, f', env') ->
            frame f f' /\ reach (_state f) (_state f') = true /\
            match r with
            | Done (Return PyFalse) =>
                _state f' = _ST_OVER \/
                (_state f' = _ST_LIVE /\ p_subscribe (p f') = SubNone)
            | Done c => ret_state c f'
            | Spins => True
            end).
  { intros H. apply loop_facts in H as (H1 & H2 & H3).
    split; [exact H1|split; [exact H2|]].
    destruct r as [[[| |]| |e|]|]; auto. }
  unfold _load. destruct (_state f) eqn:Hst; try exact Hloop.
  - unfold haslivedata, qlive.
    destruct (p_subscribe (p f)) eqn:Hsub; simpl; try exact Hloop.
    intros [= <- <- _]. rewrite Hst. split; [solve_frame|]. split; [reflexivity|].
    right. now split.
  - intros [= <- <- _]. rewrite Hst. split; [solve_frame|]. split; [reflexivity|].
    now left.
Qed.

(** *** The state machine *)

(** X1.  The moves of the state machine.  A pass of the loop goes from FROM
    to FROM or START, from START to HISTORBACK, from HISTORBACK to HISTORBACK,
    LIVE or OVER, from LIVE to LIVE, HISTORBACK or OVER, and from OVER nowhere;
    a poll, being passes in a row, ends in a state that these moves reach: OVER
    is never left, and no state goes back to FROM or to START. *)
Theorem state_moves :
  (forall f env c f' env',
      loop_body f env = (c, f', env') ->
      step_ok (_state f) (_state f') = true) /\
  (forall n f env r f' env',
      _load n f env = (r, f', env') ->
      reach (_state f) (_state f') = true).
Proof.
  split.
  - intros f env c f' env' H. now apply loop_body_facts in H.
  - intros n f env r f' env' H. now apply load_facts in H.
Qed.

(** X2.  What the value returned by a poll says.  After True the state is
    FROM, HISTORBACK or LIVE; after None the state is LIVE and the feed is on
    the store's queue; after False the state is OVER, or it is LIVE on a feed
    without subscription. *)
Theorem returned_value_and_state n f env c f' env' :
  _load n f env = (Done (Return c), f', env') ->
  match c with
  | PyTrue =>
      _state f' = _ST_FROM \/ _state f' = _ST_HISTORBACK \/ _state f' = _ST_LIVE
  | PyNone => _state f' = _ST_LIVE /\ p_subscribe (p f') = DATA
  | PyFalse =>
      _state f' = _ST_OVER \/
      (_state f' = _ST_LIVE /\ p_subscribe (p f') = SubNone)
  end.
Proof.
  intros H. apply load_facts in H as (_ & _ & H). now destruct c.
Qed.

(** X3.  A pull delivers one bar or none.  When it answers True there is one
    bar more on top of the bars that were there; with any other outcome the
    bars are as they were.  Either way the parameters and the end date are
    untouched and the notifications put before are still there, in order. *)
Theorem pull_adds_at_most_one_bar n f env r f' env' :
  pull n f env = (r, f', env') ->
  (if match r with Done (Return PyTrue) => true | _ => false end
   then exists b, lines f' = b :: lines f
   else lines f' = lines f) /\
  p f' = p f /\ todate f' = todate f /\
  exists added, notifs f' = notifs f ++ added.
Proof.
  unfold pull.
  destruct (_load n (forward f) env) as [[r1 f1] env1] eqn:Hload.
  pose proof (load_pass _ _ _ _ _ _ Hload) as [_ Hl].
  apply load_facts in Hload as (Hf & _).
  assert (Hback : lines f1 = lines (forward f) ->
                  lines (backwards f1) = lines f /\ frame f (backwards f1)).
  { intros E. split; [simpl; now rewrite E|]. exact Hf. }
  destruct r1 as [[[| |]| |e|]|]; intros [= <- <- _];
    try (destruct (Hback Hl) as [H1 H2]; split; [exact H1|exact H2]).
  split; [|exact Hf].
  destruct Hl as (b & cur & older & H1 & H2 & _).
  simpl in H1. injection H1 as _ <-. now exists b.
Qed.

(** *** The shared live queue *)

Lemma live_msg_other f env msg :
  other_feed f msg -> live_msg f env msg = (Continue, f, env).
Proof.
  intros (status & tf & Hmsg & Hd & Hc & Htf & Hcase).
  rewrite (live_msg_data _ _ _ _ Hmsg Hd Hc), Htf.
  destruct (String.eqb tf (get_granularity _ _)) eqn:Etf; [|reflexivity].
  apply String.eqb_eq in Etf. simpl negb. cbv iota.
  destruct Hcase as [Hne | (symbol & Hsym & Hne)]; [contradiction|].
  rewrite Hsym. apply String.eqb_neq in Hne. now rewrite Hne.
Qed.

Lemma loop_drains f q :
  _state f = _ST_LIVE ->
  p_subscribe (p f) = DATA ->
  Forall (other_feed f) q ->
  forall env n,
    q_livedata env = q ->
    (List.length q < n)%nat ->
    loop n f env
    = (Done (Return PyNone), f,
       Build_Env [] (data_sub env) (price_data_replies env) (requests env)
         (backfill_from env)).
Proof.
  intros Hst Hsub. induction 1 as [|msg q Hmsg _ IH]; intros env n Hq Hn.
  - destruct n as [|n]; [inversion Hn|]. simpl.
    unfold loop_body, qlive_get. rewrite Hst, Hsub, Hq.
    destruct env; simpl in *. now subst.
  - destruct n as [|n]; [inversion Hn|]. simpl in Hn.
    assert (Hbody : loop_body f env
                    = (Continue, f,
                       Build_Env q (data_sub env) (price_data_replies env)
                         (requests env) (backfill_from env))).
    { unfold loop_body, qlive_get. rewrite Hst, Hsub, Hq.
      now apply live_msg_other. }
    rewrite (loop_continue _ _ _ _ _ Hbody).
    rewrite IH; [reflexivity|reflexivity|lia].
Qed.

(** X5.  The store has one live queue for all its feeds.  A poll of a feed in
    the LIVE state takes from it every message that is for another feed
    (another granularity or another instrument) and drops it: with nothing but
    such messages in the queue, the poll returns None with the feed as it was
    and the queue empty. *)
Theorem other_feeds_messages_drained f env n :
  _state f = _ST_LIVE ->
  p_subscribe (p f) = DATA ->
  Forall (other_feed f) (q_livedata env) ->
  (List.length (q_livedata env) < n)%nat ->
  _load n f env
  = (Done (Return PyNone), f,
     Build_Env [] (data_sub env) (price_data_replies env) (requests env)
       (backfill_from env)).
Proof.
  intros Hst Hsub Hq Hn. unfold _load, haslivedata, qlive. rewrite Hst, Hsub.
  simpl. now apply (loop_drains f (q_livedata env)).
Qed.

(** *** Overlap of the history *)

(** [_load_candle] reads the parameters and the lines of the feed and
    nothing else. *)
Lemma load_candle_ext f g data :
  p f = p g ->
  lines f = lines g ->
  _load_candle g data =
  match _load_candle f data with
  | Ok (ok, f1) => Ok (ok, if ok then set_lines g (lines f1) else g)
  | Err e => Err e
  end.
Proof.
  intros Hp Hl. unfold _load_candle, addspread, datetime_prev, write_bar.
  destruct data as [|ts o h l c v s]; [reflexivity|].
  rewrite Hp, Hl. destruct (lines g) as [|cur [|b older]]; [reflexivity| |];
    simpl; (destruct (_ <=? _)%float; [reflexivity|]);
    destruct (negb (p_addspread (p g))); simpl; try reflexivity;
    destruct (float_of_int s); simpl; try reflexivity;
    destruct (endswith _ _); reflexivity.
Qed.

Lemma loop_skips_stale_candles env last stale :
  Forall (stale_candle last) stale ->
  forall f ts o h l c v s rest f1 n,
    _state f = _ST_HISTORBACK ->
    p_timeframe (p f) <> 1 ->
    qhist f = stale ++ HData (Candle ts o h l c v s) :: rest ->
    datetime_prev f = Ok last ->
    _load_candle f (Candle ts o h l c v s) = Ok (true, f1) ->
    (List.length stale < n)%nat ->
    exists f',
      loop n f env = (Done (Return PyTrue), f', env) /\
      lines f' = lines f1 /\ qhist f' = rest /\
      _state f' = _ST_HISTORBACK /\ notifs f' = notifs f.
Proof.
  induction 1 as [|msg stale Hmsg _ IH];
    intros f ts o h l c v s rest f1 n Hst Htf Hq Hlast Hload Hn;
    (destruct n as [|n]; [inversion Hn|]); simpl in Hq.
  - pose proof (loop_body_hist f env _ _ Hst Hq) as Hbody.
    set (f2 := set_historyback_queue_size _ _) in Hbody.
    unfold hist_msg in Hbody. change (p f2) with (p f) in Hbody.
    apply Z.eqb_neq in Htf. rewrite Htf in Hbody.
    rewrite (load_candle_ext f f2 _ eq_refl eq_refl), Hload in Hbody.
    eexists. split; [apply (loop_done _ _ _ _ _ _ Hbody); discriminate|].
    now repeat split.
  - destruct Hmsg as (ts0 & o0 & h0 & l0 & c0 & v0 & s0 & -> & Hle).
    destruct (stale_historical_candle_skipped f env _ _ _ _ _ _ _ _ _
                Hst Htf Hq Hlast Hle) as (f2 & Hbody & Hst2 & Hq2 & Hn2 & Hl2).
    rewrite (loop_continue _ _ _ _ _ Hbody).
    assert (Hp2 : p f2 = p f).
    { apply loop_body_facts in Hbody. apply Hbody. }
    destruct (IH f2 ts o h l c v s rest (set_lines f2 (lines f1)) n) as
      (f' & H1 & H2 & H3 & H4 & H5); try assumption.
    + now rewrite Hp2.
    + now rewrite (datetime_prev_lines f2 f Hl2).
    + rewrite (load_candle_ext f f2 _ (eq_sym Hp2) (eq_sym Hl2)), Hload.
      reflexivity.
    + simpl in Hn. lia.
    + exists f'. repeat split; try assumption. congruence.
Qed.

(** X6.  When the historical queue starts with candles that are not after the
    last bar delivered (the overlap of a backfill with what was already
    seen), one poll skips them all, without a notice and without leaving
    HISTORBACK, and delivers the first candle that is after it. *)
Theorem stale_candles_skipped f env stale ts o h l c v s rest last f1 n :
  _state f = _ST_HISTORBACK ->
  p_timeframe (p f) <> 1 ->
  qhist f = stale ++ HData (Candle ts o h l c v s) :: rest ->
  datetime_prev f = Ok last ->
  Forall (stale_candle last) stale ->
  _load_candle f (Candle ts o h l c v s) = Ok (true, f1) ->
  (List.length stale < n)%nat ->
  exists f',
    _load n f env = (Done (Return PyTrue), f', env) /\
    lines f' = lines f1 /\ qhist f' = rest /\
    _state f' = _ST_HISTORBACK /\ notifs f' = notifs f.
Proof.
  intros Hst Htf Hq Hlast Hstale Hload Hn.
  unfold _load. rewrite Hst.
  eapply loop_skips_stale_candles; eauto.
Qed.

(** *** Bars that are delivered *)

Lemma load_live f env msg env' n :
  _state f = _ST_LIVE ->
  receives f env msg env' ->
  _load (S n) f env =
  match live_msg f env' msg with
  | (Continue, f', env'') => loop n f' env''
  | (c, f', env'') => (Done c, f', env'')
  end.
Proof.
  intros Hst Hrecv. unfold _load.
  rewrite Hst, (receives_haslivedata _ _ _ _ Hrecv). simpl.
  now rewrite (loop_body_live _ _ _ _ Hst Hrecv).
Qed.

(** X7.  A live tick for the feed that is after the last bar is delivered by
    the poll that receives it, as a bar with the bid in open, high, low and
    close (the ask when [useask] is set) and with volume and open interest
    0. *)
Theorem live_tick_delivered f env msg env' status ts bid ask x last n :
  _state f = _ST_LIVE ->
  receives f env msg env' ->
  m_status msg = Some status ->
  status <> "DISCONNECTED"%string ->
  (status = "CONNECTED"%string -> _statelivereconn f = false) ->
  get_granularity (p_timeframe (p f)) (p_compression (p f)) = "TICK"%string ->
  m_timeframe msg = Some "TICK"%string ->
  m_symbol msg = Some (p_dataname (p f)) ->
  m_data msg = Some (Tick ts bid ask) ->
  float_of_int ts = Ok x ->
  datetime_prev f = Ok last ->
  (stamp2num (StampFloat (x / 1000)) <=? last)%float = false ->
  let price := if p_useask (p f) then ask else bid in
  _load (S n) f env
  = (Done (Return PyTrue),
     set_lines f
       (Build_Bar (stamp2num (StampFloat (x / 1000))) price price price price 0 0
          :: tl (lines f)),
     env').
Proof.
  intros Hst Hrecv Hmsg Hd Hc Hg Htf Hsym Hdata Hx Hlast Hle price.
  rewrite (load_live _ _ _ _ _ Hst Hrecv).
  rewrite (live_msg_data _ _ _ _ Hmsg Hd Hc), Htf, Hg, Hsym, Hdata.
  rewrite !String.eqb_refl. simpl negb. cbv iota.
  unfold _load_tick. rewrite Hx. simpl bind. rewrite Hlast. simpl bind.
  rewrite Hle. unfold datetime_prev in Hlast. unfold write_bar.
  destruct (lines f) as [|cur older]; [discriminate|]. reflexivity.
Qed.

(** X8.  A historical candle that is after the last bar is delivered by the
    poll that gets it from the queue; without [addspread] its open, high, low,
    close and volume are in the bar as they came, and the open interest is
    0. *)
Theorem historical_candle_delivered f env ts o h l c v s q last n :
  _state f = _ST_HISTORBACK ->
  p_timeframe (p f) <> 1 ->
  p_addspread (p f) = false ->
  qhist f = HData (Candle ts o h l c v s) :: q ->
  datetime_prev f = Ok last ->
  (stamp2num (StampInt ts) <=? last)%float = false ->
  exists f',
    _load (S n) f env = (Done (Return PyTrue), f', env) /\
    lines f' = Build_Bar (stamp2num (StampInt ts)) o h l c v 0 :: tl (lines f) /\
    qhist f' = q /\ _historyback_queue_size f' = Z.of_nat (List.length q) /\
    _state f' = _ST_HISTORBACK /\ notifs f' = notifs f.
Proof.
  intros Hst Htf Hadd Hq Hlast Hle. unfold _load. rewrite Hst.
  pose proof (loop_body_hist f env _ _ Hst Hq) as Hbody.
  set (f2 := set_historyback_queue_size _ _) in Hbody.
  unfold hist_msg in Hbody. change (p f2) with (p f) in Hbody.
  apply Z.eqb_neq in Htf. rewrite Htf in Hbody.
  unfold _load_candle in Hbody. change (p f2) with (p f) in Hbody.
  rewrite (datetime_prev_lines f2 f eq_refl), Hlast in Hbody. simpl bind in Hbody.
  rewrite Hle, Hadd in Hbody. simpl in Hbody.
  unfold datetime_prev in Hlast. unfold write_bar in Hbody.
  change (lines f2) with (lines f) in Hbody.
  destruct (lines f) as [|cur older] eqn:Hl; [discriminate|].
  simpl in Hbody. eexists.
  split; [apply (loop_done _ _ _ _ _ _ Hbody); discriminate|].
  now repeat split.
Qed.

(** *** Messages with keys missing *)

(** X9.  The keys of a live message are read without a test for their
    presence.  A non-empty message without "status" ends the poll in
    KeyError("status"); a data message without "timeframe" in
    KeyError("timeframe"); one of the feed's granularity without "symbol" in
    KeyError("symbol"); and one for the feed without "data" in
    KeyError("data").  The message is gone from the channel and the feed is
    as it was. *)
Theorem missing_key_raises f env msg env' n :
  _state f = _ST_LIVE ->
  receives f env msg env' ->
  truthy msg = true ->
  (m_status msg = None ->
   _load (S n) f env = (Done (Raise (KeyError "status")), f, env')) /\
  (forall status,
      m_status msg = Some status ->
      status <> "DISCONNECTED"%string ->
      (status = "CONNECTED"%string -> _statelivereconn f = false) ->
      (m_timeframe msg = None ->
       _load (S n) f env = (Done (Raise (KeyError "timeframe")), f, env')) /\
      (m_timeframe msg
       = Some (get_granularity (p_timeframe (p f)) (p_compression (p f))) ->
       (m_symbol msg = None ->
        _load (S n) f env = (Done (Raise (KeyError "symbol")), f, env')) /\
       (m_symbol msg = Some (p_dataname (p f)) ->
        m_data msg = None ->
        _load (S n) f env = (Done (Raise (KeyError "data")), f, env')))).
Proof.
  intros Hst Hrecv Htruthy.
  rewrite (load_live _ _ _ _ _ Hst Hrecv). split.
  - intros Hs. unfold live_msg. now rewrite Htruthy, Hs.
  - intros status Hs Hd Hc. rewrite (live_msg_data _ _ _ _ Hs Hd Hc). split.
    + now intros ->.
    + intros ->. rewrite String.eqb_refl. simpl negb. cbv iota. split.
      * now intros ->.
      * intros -> ->. now rewrite String.eqb_refl.
Qed.

(** *** Disconnection with backfill *)

Lemma disconnected_with_backfill_keeps_polling_aux f env msg env' :
  _state f = _ST_LIVE ->
  receives f env msg env' ->
  m_status msg = Some "DISCONNECTED"%string ->
  p_backfill (p f) = true ->
  loop_body f env
  = (Continue, set_statelivereconn (put_notification f DISCONNECTED) true, env').
Proof.
  intros Hst Hrecv Hmsg Hbf.
  rewrite (loop_body_live _ _ _ _ Hst Hrecv).
  unfold live_msg. rewrite (status_truthy _ _ Hmsg), Hmsg. simpl.
  now rewrite Hbf.
Qed.

(** X10.  With [backfill] set, a DISCONNECTED status does not end the feed:
    the notification is put, the reconnection flag is set, the state stays
    LIVE and the loop goes on polling; on the store's queue, with nothing
    after the status, the poll returns None. *)
Theorem disconnected_with_backfill_keeps_polling f env msg env' :
  _state f = _ST_LIVE ->
  receives f env msg env' ->
  m_status msg = Some "DISCONNECTED"%string ->
  p_backfill (p f) = true ->
  let f' := set_statelivereconn (put_notification f DISCONNECTED) true in
  loop_body f env = (Continue, f', env') /\
  (p_subscribe (p f) = DATA ->
   q_livedata env' = [] ->
   forall n, _load (S (S n)) f env = (Done (Return PyNone), f', env')).
Proof.
  intros Hst Hrecv Hmsg Hbf f'.
  pose proof (disconnected_with_backfill_keeps_polling_aux _ _ _ _
                Hst Hrecv Hmsg Hbf) as Hbody.
  split; [exact Hbody|]. intros Hsub Hq n.
  unfold _load. rewrite Hst, (receives_haslivedata _ _ _ _ Hrecv). simpl negb.
  cbv iota. rewrite (loop_continue _ _ _ _ _ Hbody).
  apply loop_done; [|discriminate].
  unfold loop_body, qlive_get. cbn [_state f' set_statelivereconn put_notification p].
  now rewrite Hst, Hsub, Hq.
Qed.

(** X11.  A disconnection and the reconnection after it, met in one poll
    (backfill set, the two statuses one after the other in the store's
    queue): the poll goes on as a poll of the feed in HISTORBACK on the
    queue that the store answers with, the flag clear again, with
    DISCONNECTED, CONNECTED and DELAYED put in that order, the bars
    untouched, and the store asked for the history from the datetime of the
    last bar delivered. *)
Theorem reconnection_cycle f env m1 m2 q cur last older :
  _state f = _ST_LIVE ->
  p_subscribe (p f) = DATA ->
  p_backfill (p f) = true ->
  q_livedata env = m1 :: m2 :: q ->
  m_status m1 = Some "DISCONNECTED"%string ->
  m_status m2 = Some "CONNECTED"%string ->
  lines f = cur :: last :: older ->
  exists f' env',
    (forall n, _load (S (S n)) f env = loop n f' env') /\
    _state f' = _ST_HISTORBACK /\
    _statelivereconn f' = false /\
    notifs f' = notifs f ++ [DISCONNECTED; CONNECTED; DELAYED] /\
    lines f' = lines f /\
    fromdate f' = datetime last /\
    q_livedata env' = q /\
    qhist f' = hd [] (price_data_replies env) /\
    map r_date_begin (requests env')
    = map r_date_begin (requests env)
      ++ [if (neg_infinity <? datetime last)%float then Some (datetime last)
          else None].
Proof.
  intros Hst Hsub Hbf Hq Hm1 Hm2 Hl.
  set (env1 := Build_Env (m2 :: q) (data_sub env) (price_data_replies env)
                 (requests env) (backfill_from env)).
  set (env2 := Build_Env q (data_sub env) (price_data_replies env)
                 (requests env) (backfill_from env)).
  assert (Hr1 : receives f env m1 env1).
  { unfold receives, qlive_get. now rewrite Hsub, Hq. }
  pose proof (disconnected_with_backfill_keeps_polling_aux f env m1 env1
                Hst Hr1 Hm1 Hbf) as Hb1.
  set (f1 := set_statelivereconn (put_notification f DISCONNECTED) true) in Hb1.
  assert (Hr2 : receives f1 env1 m2 env2).
  { unfold receives, qlive_get. cbn [p f1 set_statelivereconn put_notification].
    now rewrite Hsub. }
  assert (Hb2 : loop_body f1 env1 = live_msg f1 env2 m2).
  { apply loop_body_live; [exact Hst|exact Hr2]. }
  unfold live_msg in Hb2. rewrite (status_truthy _ _ Hm2), Hm2 in Hb2.
  simpl in Hb2. unfold len in Hb2.
  cbn [lines f1 set_statelivereconn put_notification] in Hb2.
  rewrite Hl in Hb2.
  replace (1 <? _) with true in Hb2
    by (symmetry; apply Z.ltb_lt; simpl List.length; lia).
  unfold datetime_prev in Hb2.
  cbn [lines f1 set_statelivereconn put_notification] in Hb2.
  rewrite Hl in Hb2. simpl bind in Hb2.
  unfold _st_start, price_data in Hb2.
  cbn [price_data_replies env2] in Hb2.
  destruct (price_data_replies env) as [|reply rest] eqn:Hrep;
    (eexists; eexists; split;
     [intros n; unfold _load;
      rewrite Hst, (receives_haslivedata _ _ _ _ Hr1); simpl negb; cbv iota;
      rewrite (loop_continue _ _ _ _ _ Hb1), (loop_continue _ _ _ _ _ Hb2);
      reflexivity|]);
    cbn; rewrite ?map_app, <- ?app_assoc; now repeat split.
Qed.

(** *** The ends of the sources *)

(** X12.  When the historical queue yields None the feed is over, whether
    [historical] is set or not: the poll puts DISCONNECTED, sets the state to
    OVER and returns False, the bars untouched, and every later pull returns
    False. *)
Theorem cancelled_history_ends_feed f env q n :
  _state f = _ST_HISTORBACK ->
  qhist f = HNone :: q ->
  exists f',
    _load (S n) f env = (Done (Return PyFalse), f', env) /\
    _state f' = _ST_OVER /\
    notifs f' = notifs f ++ [DISCONNECTED] /\
    lines f' = lines f /\
    forall script,
      pulls script f' = (repeat (Done (Return PyFalse)) (List.length script), f').
Proof.
  intros Hst Hq. pose proof (loop_body_hist f env _ _ Hst Hq) as Hbody.
  unfold hist_msg in Hbody. eexists. split.
  - unfold _load. rewrite Hst. apply (loop_done _ _ _ _ _ _ Hbody). discriminate.
  - repeat split. intros script. now apply pulls_over.
Qed.

(** X13.  In the FROM state a pull takes the next bar of the external feed
    and delivers it as it is, all seven lines, on top of the bars delivered
    before; the state stays FROM and nothing is put on the notifications. *)
Theorem external_bar_copied f env b rest n :
  _state f = _ST_FROM ->
  backfill_from env = Some (b :: rest) ->
  exists f' env',
    pull (S n) f env = (Done (Return PyTrue), f', env') /\
    lines f' = b :: lines f /\
    backfill_from env' = Some rest /\
    _state f' = _ST_FROM /\
    notifs f' = notifs f.
Proof.
  intros Hst Hb. unfold pull, _load.
  cbn [_state forward set_lines]. rewrite Hst.
  simpl loop. unfold loop_body.
  cbn [_state forward set_lines]. rewrite Hst.
  unfold backfill_from_next. rewrite Hb. simpl.
  eexists. eexists. split; [reflexivity|]. now repeat split.
Qed.

(** X14.  When the external feed has no more bars, the poll that finds it so
    returns nothing for it: the state goes to START and then, in the same
    poll, [_st_start] puts DELAYED and asks the store for the history (the
    [return False] of the START branch is never taken), and the poll goes on
    as a poll of the feed in HISTORBACK. *)
Theorem external_feed_handover f env :
  _state f = _ST_FROM ->
  backfill_from env = Some [] ->
  exists f' env',
    (forall n, _load (S (S n)) f env = _load n f' env') /\
    _state f' = _ST_HISTORBACK /\
    notifs f' = notifs f ++ [DELAYED] /\
    lines f' = lines f /\
    qhist f' = hd [] (price_data_replies env) /\
    requests env'
    = requests env ++
      [Build_HistRequest (p_dataname (p f))
         (if (neg_infinity <? fromdate f)%float then Some (fromdate f) else None)
         (if (todate f <? infinity)%float then Some (todate f) else None)
         (p_timeframe (p f)) (p_compression (p f)) (p_include_last (p f))].
Proof.
  intros Hst Hb.
  assert (H1 : loop_body f env = (Continue, set_state f _ST_START, env)).
  { unfold loop_body, backfill_from_next. now rewrite Hst, Hb. }
  destruct (_st_start (set_state f _ST_START) env) as [[ok f2] env2] eqn:Hs.
  assert (H2 : loop_body (set_state f _ST_START) env = (Continue, f2, env2) /\
               ok = true).
  { unfold loop_body. cbn [_state set_state]. rewrite Hs.
    unfold _st_start, price_data in Hs.
    destruct (price_data_replies env); injection Hs as <- _ _; now split. }
  destruct H2 as [H2 _].
  exists f2, env2. split.
  - intros n. unfold _load at 1. rewrite Hst.
    rewrite (loop_continue _ _ _ _ _ H1), (loop_continue _ _ _ _ _ H2).
    unfold _load. unfold _st_start, price_data in Hs.
    destruct (price_data_replies env); injection Hs as _ <- _; reflexivity.
  - unfold _st_start, price_data in Hs.
    destruct (price_data_replies env); injection Hs as _ <- <-; now repeat split.
Qed.

(** *** Requests to the store *)

Lemma ltb_neg_infinity x :
  (neg_infinity <? x)%float = false <-> x = neg_infinity \/ x = nan.
Proof.
  rewrite ltb_spec. change (Prim2SF neg_infinity) with (S754_infinity true).
  split.
  - intros H. destruct (Prim2SF x) as [s|[|]| |s m e] eqn:E; try discriminate.
    + left. apply Prim2SF_inj. now rewrite E.
    + right. apply Prim2SF_inj. now rewrite E.
  - intros [-> | ->]; reflexivity.
Qed.

Lemma ltb_infinity x :
  (x <? infinity)%float = false <-> x = infinity \/ x = nan.
Proof.
  rewrite ltb_spec. change (Prim2SF infinity) with (S754_infinity false).
  split.
  - intros H. destruct (Prim2SF x) as [s|[|]| |s m e] eqn:E; try discriminate.
    + left. apply Prim2SF_inj. now rewrite E.
    + right. apply Prim2SF_inj. now rewrite E.
  - intros [-> | ->]; reflexivity.
Qed.

(** X16.  [_st_start] always succeeds, leaves the feed in HISTORBACK with
    DELAYED put, and sends the store one request for the feed's instrument,
    timeframe and compression.  The request has no start date exactly when
    [fromdate] is minus infinity (or not a number) and otherwise starts at
    [fromdate]; it has no end date exactly when [todate] is plus infinity (or
    not a number) and otherwise ends at [todate]. *)
Theorem history_request_bounds f env :
  exists f' env' r,
    _st_start f env = (true, f', env') /\
    _state f' = _ST_HISTORBACK /\
    notifs f' = notifs f ++ [DELAYED] /\
    requests env' = requests env ++ [r] /\
    r_dataname r = p_dataname (p f) /\
    r_timeframe r = p_timeframe (p f) /\
    r_compression r = p_compression (p f) /\
    r_include_last r = p_include_last (p f) /\
    (r_date_begin r = None <-> fromdate f = neg_infinity \/ fromdate f = nan) /\
    (r_date_begin r <> None -> r_date_begin r = Some (fromdate f)) /\
    (r_date_end r = None <-> todate f = infinity \/ todate f = nan) /\
    (r_date_end r <> None -> r_date_end r = Some (todate f)).
Proof.
  unfold _st_start, price_data.
  cbn [fromdate todate p put_notification].
  destruct (price_data_replies env);
    (eexists; eexists; eexists; split; [reflexivity|]);
    cbn [_state notifs set_state set_qhist put_notification requests
         r_dataname r_timeframe r_compression r_include_last r_date_begin
         r_date_end];
    repeat (split; [reflexivity|]);
    rewrite <- (ltb_neg_infinity (fromdate f)), <- (ltb_infinity (todate f));
    destruct (neg_infinity <? fromdate f)%float,
             (todate f <? infinity)%float;
    repeat split; intros; try reflexivity; try discriminate; try contradiction.
Qed.

Lemma announced_none f env f' env' added :
  notifs f' = notifs f ++ added ->
  requests env' = requests env ->
  count_delayed added = 0%nat ->
  announced f env f' env'.
Proof.
  intros Hn Hr Hc. exists added, []. rewrite app_nil_r. now repeat split.
Qed.

Lemma announced_refl f env : announced f env f env.
Proof. apply (announced_none _ _ _ _ []); [now rewrite app_nil_r|easy|easy]. Qed.

Lemma count_delayed_app l1 l2 :
  count_delayed (l1 ++ l2) = (count_delayed l1 + count_delayed l2)%nat.
Proof.
  induction l1 as [|[| | |] l1 IH]; simpl; auto.
Qed.

Lemma announced_trans f env g env1 h env2 :
  announced f env g env1 -> announced g env1 h env2 -> announced f env h env2.
Proof.
  intros (a1 & r1 & Hn1 & Hr1 & Hc1) (a2 & r2 & Hn2 & Hr2 & Hc2).
  exists (a1 ++ a2), (r1 ++ r2).
  rewrite Hn2, Hn1, Hr2, Hr1, !app_assoc, length_app, count_delayed_app.
  repeat split. lia.
Qed.

Lemma st_start_announced f env ok f' env' :
  _st_start f env = (ok, f', env') -> announced f env f' env'.
Proof.
  unfold _st_start, price_data.
  destruct (price_data_replies env); intros [= _ <- <-];
    (exists [DELAYED]; eexists; repeat split; reflexivity).
Qed.

Lemma built_announced f env ok f' :
  built f (ok, f') -> announced f env f' env.
Proof.
  intros Hb. destruct (built_same _ _ _ Hb) as (_ & _ & Hn & _).
  apply (announced_none _ _ _ _ []); [now rewrite app_nil_r|easy|easy].
Qed.

Lemma live_msg_announced f env msg c f' env' :
  live_msg f env msg = (c, f', env') -> announced f env f' env'.
Proof.
  unfold live_msg.
  pose proof (announced_refl f env) as Hsame.
  destruct (negb (truthy msg)); [now intros [= _ <- <-]|].
  destruct (m_status msg) as [status|]; [|now intros [= _ <- <-]].
  destruct (String.eqb status "DISCONNECTED").
  { intros [= _ <- <-]. cbn [p put_notification].
    destruct (negb (p_backfill (p f)));
      now apply (announced_none _ _ _ _ [DISCONNECTED]). }
  destruct (String.eqb status "CONNECTED" && _statelivereconn f)%bool.
  { destruct (rewind_fromdate (set_statelivereconn (put_notification f CONNECTED) false))
      as (f2 & -> & _ & Hn & _).
    destruct (_st_start f2 env) as [[ok f3] env3] eqn:Hs.
    intros [= _ <- <-]. apply st_start_announced in Hs.
    eapply announced_trans; [|exact Hs].
    apply (announced_none _ _ _ _ [CONNECTED]); [|easy|easy].
    now rewrite Hn. }
  destruct (m_timeframe msg) as [tf|]; [|now intros [= _ <- <-]].
  destruct (negb _); [now intros [= _ <- <-]|].
  destruct (m_symbol msg) as [symbol|]; [|now intros [= _ <- <-]].
  destruct (negb _); [now intros [= _ <- <-]|].
  destruct (m_data msg) as [data|]; [|now intros [= _ <- <-]].
  destruct (String.eqb tf "TICK").
  - destruct (_load_tick f data) as [[ok f1]|e] eqn:E; simpl.
    + apply load_tick_built in E.
      destruct ok; intros [= _ <- <-]; now apply (built_announced _ _ _ _ E).
    + now intros [= _ <- <-].
  - destruct (_load_candle f data) as [[ok f1]|e] eqn:E; simpl.
    + apply load_candle_built in E.
      destruct ok; intros [= _ <- <-]; now apply (built_announced _ _ _ _ E).
    + now intros [= _ <- <-].
Qed.

Lemma hist_msg_announced f env msg c f' env' :
  hist_msg f env msg = (c, f', env') -> announced f env f' env'.
Proof.
  unfold hist_msg, go_live.
  pose proof (announced_refl f env) as Hsame.
  destruct msg as [|data|].
  - intros [= _ <- <-]. now apply (announced_none _ _ _ _ [DISCONNECTED]).
  - destruct (p_timeframe (p f) =? 1).
    + destruct (_load_tick f data) as [[[|] f1]|e] eqn:E;
        try apply load_tick_built in E; intros [= _ <- <-]; try assumption.
      * now apply (built_announced _ _ _ _ E).
      * simpl in E. subst f1. now apply (announced_none _ _ _ _ [LIVE]).
    + destruct (_load_candle f data) as [[[|] f1]|e] eqn:E;
        try apply load_candle_built in E; intros [= _ <- <-]; try assumption;
        now apply (built_announced _ _ _ _ E).
  - destruct (p_historical (p f)); intros [= _ <- <-].
    + now apply (announced_none _ _ _ _ [DISCONNECTED]).
    + now apply (announced_none _ _ _ _ [LIVE]).
Qed.

Lemma loop_body_announced f env c f' env' :
  loop_body f env = (c, f', env') -> announced f env f' env'.
Proof.
  unfold loop_body.
  pose proof (announced_refl f env) as Hsame.
  destruct (_state f).
  - unfold backfill_from_next.
    destruct (backfill_from env) as [[|b rest]|].
    + intros [= _ <- <-]. now apply (announced_none _ _ _ _ []); rewrite ?app_nil_r.
    + destruct (write_bar f b) as [f1|e] eqn:Hw; intros [= _ <- <-].
      * apply write_bar_ok in Hw as (cur & older & _ & ->).
        now apply (announced_none _ _ _ _ []); rewrite ?app_nil_r.
      * assumption.
    + now intros [= _ <- <-].
  - destruct (_st_start f env) as [[ok f1] env1] eqn:Hs.
    pose proof (st_start_announced _ _ _ _ _ Hs) as Ha.
    destruct (negb ok); intros [= _ <- <-]; [|exact Ha].
    destruct Ha as (a & r & H1 & H2 & H3). now exists a, r.
  - unfold qlive_get, qlive_recv. destruct (p_subscribe (p f)).
    + destruct (q_livedata env) as [|msg q]; [now intros [= _ <- <-]|].
      intros H. apply live_msg_announced in H.
      destruct H as (a & r & H1 & H2 & H3). now exists a, r.
    + destruct (data_sub env) as [|[topic msg] q]; [now intros [= _ <- <-]|].
      intros H. apply live_msg_announced in H.
      destruct H as (a & r & H1 & H2 & H3). now exists a, r.
    + now intros [= _ <- <-].
  - unfold qhist_get. destruct (qhist f) as [|msg q]; [now intros [= _ <- <-]|].
    intros H. apply hist_msg_announced in H.
    destruct H as (a & r & H1 & H2 & H3). now exists a, r.
  - now intros [= _ <- <-].
Qed.

(** X17.  Every request for history is announced.  Over a poll, the
    notifications that were there stay, in order, the requests that the store
    had received stay, and the requests added are as many as the DELAYED
    notifications added. *)
Theorem requests_are_announced n f env r f' env' :
  _load n f env = (r, f', env') ->
  exists added reqs,
    notifs f' = notifs f ++ added /\
    requests env' = requests env ++ reqs /\
    List.length reqs = count_delayed added.
Proof.
  assert (Hloop : forall n f env r f' env',
             loop n f env = (r, f', env') -> announced f env f' env').
  { clear. intros n. induction n as [|n IH]; intros f env r f' env'.
    - intros [= _ <- <-]. apply announced_refl.
    - simpl. destruct (loop_body f env) as [[c f1] env1] eqn:Hbody.
      apply loop_body_announced in Hbody.
      destruct c as [[| |]| |e|]; try (now intros [= _ <- <-]).
      intros H. apply IH in H. eapply announced_trans; eauto. }
  unfold _load. destruct (_state f); try apply Hloop.
  - destruct (negb (haslivedata f)); [|apply Hloop].
    intros [= _ <- <-]. apply announced_refl.
  - intros [= _ <- <-]. apply announced_refl.
Qed.

(** *** No subscription, from start *)

(** The state is set to LIVE at line 270 only, and the [continue] of line 272
    follows: a pass that brings the feed into the LIVE state does not
    return. *)
Lemma hist_msg_into_live f env msg c f' env' :
  _state f = _ST_HISTORBACK ->
  hist_msg f env msg = (c, f', env') ->
  _state f' = _ST_LIVE ->
  c = Continue.
Proof.
  intros Hst. unfold hist_msg, go_live. destruct msg as [|data|].
  - intros [= <- <- _]. discriminate.
  - destruct (p_timeframe (p f) =? 1).
    + destruct (_load_tick f data) as [[[|] f1]|e] eqn:E;
        try apply load_tick_built in E; intros [= <- <- _]; try reflexivity.
      * destruct (built_same _ _ _ E) as (_ & _ & _ & Hs). rewrite Hs, Hst.
        discriminate.
      * rewrite Hst. discriminate.
    + destruct (_load_candle f data) as [[[|] f1]|e] eqn:E;
        try apply load_candle_built in E; intros [= <- <- _]; try reflexivity.
      * destruct (built_same _ _ _ E) as (_ & _ & _ & Hs). rewrite Hs, Hst.
        discriminate.
      * rewrite Hst. discriminate.
  - destruct (p_historical (p f)); intros [= <- <- _];
      [discriminate|reflexivity].
Qed.

Lemma pass_into_live f env c f' env' :
  loop_body f env = (c, f', env') ->
  _state f <> _ST_LIVE ->
  _state f' = _ST_LIVE ->
  c = Continue.
Proof.
  intros Hbody Hst Hlive.
  pose proof (loop_body_facts _ _ _ _ _ Hbody) as (_ & Hstep & _).
  rewrite Hlive in Hstep.
  destruct (_state f) eqn:Hs; try discriminate; [now elim Hst|].
  unfold loop_body, qhist_get in Hbody. rewrite Hs in Hbody.
  destruct (qhist f) as [|msg q].
  - injection Hbody as _ <- _. rewrite Hs in Hlive. discriminate.
  - exact (hist_msg_into_live
             (set_historyback_queue_size (set_qhist f q)
                (qhist_qsize (set_qhist f q)))
             _ _ _ _ _ Hs Hbody Hlive).
Qed.

(** With [subscribe] None, a poll that does not start in the LIVE state does
    not end in it either, unless it is still in its loop. *)
Lemma no_subscription_loop n f env r f' env' :
  p_subscribe (p f) = SubNone ->
  loop n f env = (r, f', env') ->
  r = Spins \/ (_state f' <> _ST_LIVE /\ p f' = p f).
Proof.
  revert f env. induction n as [|n IH]; intros f env Hsub.
  - intros [= <- _ _]. now left.
  - destruct (_state f) eqn:Hst;
      try (rewrite (no_subscription_loop_spins (S n) f env Hsub Hst);
           intros [= <- _ _]; now left).
    all: simpl; destruct (loop_body f env) as [[c f1] env1] eqn:Hbody;
      pose proof (loop_body_facts _ _ _ _ _ Hbody) as ((Hp & _) & _);
      assert (Hne : _state f <> _ST_LIVE) by (rewrite Hst; discriminate);
      assert (Hdone : c <> Continue ->
                      _state f1 <> _ST_LIVE /\ p f1 = p f)
        by (intros Hc; split; [|exact Hp]; intros Hl;
            exact (Hc (pass_into_live _ _ _ _ _ Hbody Hne Hl)));
      destruct c as [[| |]| |e|];
      try (intros [= <- <- _]; right; apply Hdone; discriminate);
      intros H; apply IH in H; [|now rewrite Hp];
      destruct H as [H|[H1 H2]]; [now left|right];
      split; [exact H1|congruence].
Qed.

Lemma no_subscription_pull n f env r f' env' :
  p_subscribe (p f) = SubNone ->
  _state f <> _ST_LIVE ->
  pull n f env = (r, f', env') ->
  r = Spins \/ (_state f' <> _ST_LIVE /\ p f' = p f).
Proof.
  intros Hsub Hst. unfold pull.
  destruct (_load n (forward f) env) as [[r1 f1] env1] eqn:Hload.
  assert (H1 : r1 = Spins \/ (_state f1 <> _ST_LIVE /\ p f1 = p f)).
  { unfold _load in Hload. cbn [_state forward set_lines] in Hload.
    destruct (_state f) eqn:Hs;
      try (exact (no_subscription_loop n (forward f) env r1 f1 env1 Hsub Hload));
      [now elim Hst|].
    injection Hload as <- <- _. right. split; [|reflexivity].
    simpl. rewrite Hs. discriminate. }
  destruct r1 as [[[| |]| |e|]|]; intros [= <- <- _];
    (destruct H1 as [H1|H1]; [try discriminate H1; now left|now right]).
Qed.

(** C10 (as the code has it).  With [subscribe] None no poll is ever made in
    the LIVE state.  From [start], whatever the store delivers, as long as the
    pulls return the feed is in a state other than LIVE; and the poll whose
    pass sets the state to LIVE (line 270) goes on in the loop with
    [msg = None], past the test of lines 198-199, and never returns: the feed
    hangs where False was to be returned. *)
Theorem no_subscription_never_polls_live :
  (forall ps fromdate todate env f0 env0 script rs f,
      p_subscribe ps = SubNone ->
      start ps fromdate todate env = (f0, env0) ->
      pulls script f0 = (rs, f) ->
      Forall (fun r => r <> Spins) rs ->
      _state f <> _ST_LIVE) /\
  (forall f env f1 env1 n,
      p_subscribe (p f) = SubNone ->
      _state f <> _ST_LIVE ->
      loop_body f env = (Continue, f1, env1) ->
      _state f1 = _ST_LIVE ->
      _load (S n) f env = (Spins, f1, env1)).
Proof.
  split.
  - intros ps fromdate todate env f0 env0 script rs f Hsub Hstart.
    assert (H0 : p_subscribe (p f0) = SubNone /\ _state f0 <> _ST_LIVE).
    { unfold start, _st_start, price_data in Hstart.
      destruct (backfill_from env); [|destruct (price_data_replies env)];
        injection Hstart as <- _; (split; [exact Hsub|discriminate]). }
    destruct H0 as [Hsub0 Hst0]. clear Hstart Hsub.
    revert f0 rs Hsub0 Hst0.
    induction script as [|[n e] rest IH]; intros f0 rs Hsub0 Hst0.
    + now intros [= _ <-].
    + simpl. destruct (pull n f0 e) as [[r f1] env1] eqn:Hpull.
      destruct (pulls rest f1) as [rs1 f2] eqn:Hrest.
      intros [= <- <-] Hall. inversion Hall as [|? ? Hr Hrs]; subst.
      destruct (no_subscription_pull _ _ _ _ _ _ Hsub0 Hst0 Hpull)
        as [Hspin|[Hst1 Hp1]]; [contradiction|].
      apply (IH f1 rs1); [now rewrite Hp1|exact Hst1|exact Hrest|exact Hrs].
  - intros f env f1 env1 n Hsub Hst Hbody Hlive.
    pose proof (loop_body_facts _ _ _ _ _ Hbody) as ((Hp & _) & _).
    assert (Hloop : loop (S n) f env = (Spins, f1, env1)).
    { rewrite (loop_continue _ _ _ _ _ Hbody).
      apply no_subscription_loop_spins; [now rewrite Hp|exact Hlive]. }
    unfold _load. destruct (_state f) eqn:Hs; try exact Hloop;
      [contradiction|].
    unfold loop_body in Hbody. rewrite Hs in Hbody.
    injection Hbody as <- _. rewrite Hs in Hlive. discriminate.
Qed.

End Load.

(** ** Instances *)

(** C1 at a feed on the store's queue, without backfill, with a DISCONNECTED
    status in the queue. *)
Lemma disconnected_without_backfill_spins_sample :
  exists f',
    _load Sample.granularity Sample.days 5
      (Sample.feed (Sample.params "EURUSD" 4 DATA false false false) _ST_LIVE
         false [] [nan_bar])
      (Sample.env [Sample.status_msg "DISCONNECTED"])
    = (Spins, f', Sample.env []) /\
    _state f' = _ST_OVER /\
    notifs f' = [DISCONNECTED].
Proof.
  apply (disconnected_without_backfill_spins Sample.granularity Sample.days
           (Sample.feed (Sample.params "EURUSD" 4 DATA false false false) _ST_LIVE
              false [] [nan_bar])
           (Sample.env [Sample.status_msg "DISCONNECTED"])
           (Sample.status_msg "DISCONNECTED") (Sample.env [])
           eq_refl eq_refl eq_refl eq_refl 4%nat).
Defined.

(** C9 at a feed whose last bar is of day 3: the tick and the candle of day 1
    are rejected and nothing is written. *)
Lemma stale_message_writes_nothing_sample :
  _load_tick Sample.days
    (Sample.feed Sample.eurusd _ST_LIVE false [] [nan_bar; Sample.bar 3])
    (Sample.tick 1)
  = Ok (false, Sample.feed Sample.eurusd _ST_LIVE false [] [nan_bar; Sample.bar 3]) /\
  _load_candle Sample.days
    (Sample.feed Sample.eurusd _ST_LIVE false [] [nan_bar; Sample.bar 3])
    (Sample.candle 1)
  = Ok (false, Sample.feed Sample.eurusd _ST_LIVE false [] [nan_bar; Sample.bar 3]).
Proof.
  destruct (stale_message_writes_nothing Sample.days
              (Sample.feed Sample.eurusd _ST_LIVE false [] [nan_bar; Sample.bar 3])
              3%float eq_refl) as (Ht & Hc & _).
  split.
  - apply (Ht _ _ _ 86400000%float); vm_compute; reflexivity.
  - apply Hc. vm_compute. reflexivity.
Defined.

(** C3 at a tick feed in HISTORBACK whose last bar is of day 3, with the tick
    of day 1 in the historical queue. *)
Lemma stale_historical_tick_goes_live_sample :
  exists f',
    loop_body Sample.granularity Sample.days
      (Sample.feed (Sample.params "EURUSD" 1 DATA false true false) _ST_HISTORBACK
         false [HData (Sample.tick 1); HData (Sample.tick 4)]
         [nan_bar; Sample.bar 3])
      (Sample.env [])
    = (Continue, f', Sample.env []) /\
    _state f' = _ST_LIVE /\
    notifs f' = [LIVE] /\
    lines f' = [nan_bar; Sample.bar 3].
Proof.
  apply (stale_historical_tick_goes_live Sample.granularity Sample.days
           (Sample.feed (Sample.params "EURUSD" 1 DATA false true false)
              _ST_HISTORBACK false [HData (Sample.tick 1); HData (Sample.tick 4)]
              [nan_bar; Sample.bar 3])
           (Sample.env []) 86400000 1.1%float 1.2%float [HData (Sample.tick 4)]
           86400000%float 3%float);
    vm_compute; reflexivity.
Defined.

(** C2, amended, at a feed in HISTORBACK whose last bar is of day 1, with the
    candle of day 2 in the historical queue. *)
Lemma built_bar_is_newer_sample :
  exists b,
    lines (snd (fst (pull Sample.granularity Sample.days 1
                       (Sample.feed Sample.eurusd _ST_HISTORBACK false
                          [HData (Sample.candle 2)] [Sample.bar 1])
                       (Sample.env []))))
    = b :: [Sample.bar 1] /\
    forall b0 older,
      [Sample.bar 1] = b0 :: older ->
      (datetime b <=? datetime b0)%float = false /\
      (PrimFloat.is_nan (datetime b) = false ->
       PrimFloat.is_nan (datetime b0) = false ->
       (datetime b0 <? datetime b)%float = true).
Proof.
  apply (proj1 (built_bar_is_newer Sample.granularity Sample.days) 1%nat
           (Sample.feed Sample.eurusd _ST_HISTORBACK false
              [HData (Sample.candle 2)] [Sample.bar 1])
           (Sample.env []) _ (Sample.env [])).
  - vm_compute. reflexivity.
  - vm_compute. discriminate.
Defined.

(** C2 as stated fails in the FROM state: the bars of the external feed are
    copied as they come, here the bar of day 5 and then the bar of day 3, and
    both are delivered. *)
Lemma external_bars_not_checked :
  exists f1 env1 f2 env2,
    pull Sample.granularity Sample.days 1
      (Sample.feed Sample.eurusd _ST_FROM false [] []) Sample.env_from
    = (Done (Return PyTrue), f1, env1) /\
    pull Sample.granularity Sample.days 1 f1 env1
    = (Done (Return PyTrue), f2, env2) /\
    map datetime (lines f2) = [3%float; 5%float] /\
    (3 <=? 5)%float = true /\
    ~ ascending (lines f2).
Proof.
  eexists. eexists. eexists. eexists.
  split; [vm_compute; reflexivity|].
  split; [vm_compute; reflexivity|].
  split; [reflexivity|]. split; [reflexivity|].
  simpl. intros [H _]. vm_compute in H. discriminate.
Qed.

(** C4 at a feed in the LIVE state that was disconnected, with the last bar of
    day 3 and a CONNECTED status in the queue. *)
Lemma reconnect_restarts_backfill_sample :
  exists f' env'',
    loop_body Sample.granularity Sample.days
      (Sample.feed Sample.eurusd _ST_LIVE true [] [nan_bar; Sample.bar 3])
      (Sample.env [Sample.status_msg "CONNECTED"])
    = (Continue, f', env'') /\
    notifs f' = [CONNECTED; DELAYED] /\
    _statelivereconn f' = false /\
    fromdate f' = 3%float /\
    map r_date_begin (requests env'') = [Some 3%float] /\
    _state f' = _ST_HISTORBACK.
Proof.
  destruct (reconnect_restarts_backfill Sample.granularity Sample.days
              (Sample.feed Sample.eurusd _ST_LIVE true [] [nan_bar; Sample.bar 3])
              (Sample.env [Sample.status_msg "CONNECTED"])
              (Sample.status_msg "CONNECTED") (Sample.env [])
              eq_refl eq_refl eq_refl eq_refl)
    as (f' & env'' & H1 & H2 & H3 & H4 & _ & H6 & _ & H8).
  exists f', env''.
  pose proof (H4 nan_bar (Sample.bar 3) [] eq_refl) as H4'. simpl in H4'.
  repeat split; try assumption.
  rewrite H6, H4'. vm_compute. reflexivity.
Defined.

(** C5 at a feed whose historical queue holds the end marker, with and
    without [historical]. *)
Lemma end_of_history_sample :
  (exists f',
      (forall n,
          _load Sample.granularity Sample.days (S n)
            (Sample.feed (Sample.params "EURUSD" 4 DATA true true false)
               _ST_HISTORBACK false [HEnd] [nan_bar; Sample.bar 3])
            (Sample.env [])
          = (Done (Return PyFalse), f', Sample.env [])) /\
      _state f' = _ST_OVER /\
      notifs f' = [DISCONNECTED] /\
      forall script,
        pulls Sample.granularity Sample.days script f'
        = (repeat (Done (Return PyFalse)) (List.length script), f')) /\
  (exists f',
      loop_body Sample.granularity Sample.days
        (Sample.feed Sample.eurusd _ST_HISTORBACK false [HEnd]
           [nan_bar; Sample.bar 3])
        (Sample.env [])
      = (Continue, f', Sample.env []) /\
      _state f' = _ST_LIVE /\
      notifs f' = [LIVE]).
Proof.
  split.
  - apply (proj1 (end_of_history Sample.granularity Sample.days
                    (Sample.feed (Sample.params "EURUSD" 4 DATA true true false)
                       _ST_HISTORBACK false [HEnd] [nan_bar; Sample.bar 3])
                    (Sample.env []) [] eq_refl eq_refl) eq_refl).
  - apply (proj2 (end_of_history Sample.granularity Sample.days
                    (Sample.feed Sample.eurusd _ST_HISTORBACK false [HEnd]
                       [nan_bar; Sample.bar 3])
                    (Sample.env []) [] eq_refl eq_refl) eq_refl).
Defined.

(** C6, amended, at a candle for another instrument. *)
Lemma live_message_not_for_feed_dropped_sample :
  loop_body Sample.granularity Sample.days
    (Sample.feed Sample.eurusd _ST_LIVE false [] [nan_bar; Sample.bar 3])
    (Sample.env [Sample.data_msg "M1" "GBPUSD" (Sample.candle 4)])
  = (Continue,
     Sample.feed Sample.eurusd _ST_LIVE false [] [nan_bar; Sample.bar 3],
     Sample.env []).
Proof.
  apply (live_message_not_for_feed_dropped Sample.granularity Sample.days
           (Sample.feed Sample.eurusd _ST_LIVE false [] [nan_bar; Sample.bar 3])
           (Sample.env [Sample.data_msg "M1" "GBPUSD" (Sample.candle 4)])
           (Sample.data_msg "M1" "GBPUSD" (Sample.candle 4)) (Sample.env [])
           "CONNECTED" "M1" eq_refl eq_refl eq_refl).
  - discriminate.
  - reflexivity.
  - reflexivity.
  - right. left. exists "GBPUSD"%string. split; [reflexivity|discriminate].
Defined.

(** C6 as stated fails for a CONNECTED status that arrives with the
    reconnection flag clear: the message that holds nothing but the status has
    no "timeframe" key and the poll ends in a KeyError; the message that holds
    the status along with a candle for the feed is loaded as a bar. *)
Lemma connected_status_not_dropped :
  _load Sample.granularity Sample.days 1
    (Sample.feed Sample.eurusd _ST_LIVE false [] [nan_bar; Sample.bar 3])
    (Sample.env [Sample.status_msg "CONNECTED"])
  = (Done (Raise (KeyError "timeframe")),
     Sample.feed Sample.eurusd _ST_LIVE false [] [nan_bar; Sample.bar 3],
     Sample.env []) /\
  exists b,
    _load Sample.granularity Sample.days 1
      (Sample.feed Sample.eurusd _ST_LIVE false [] [nan_bar; Sample.bar 3])
      (Sample.env [Sample.data_msg "M1" "EURUSD" (Sample.candle 4)])
    = (Done (Return PyTrue),
       Sample.feed Sample.eurusd _ST_LIVE false [] [b; Sample.bar 3],
       Sample.env []) /\
    datetime b = 4%float.
Proof.
  split; [vm_compute; reflexivity|].
  eexists. split; vm_compute; reflexivity.
Qed.

(** C7 at a SUB feed in the LIVE state whose socket delivers nothing. *)
Lemma sub_socket_never_tries_later_sample :
  _load Sample.granularity Sample.days 3
    (Sample.feed (Sample.params "EURUSD" 4 SUB false true false) _ST_LIVE false
       [] [nan_bar])
    (Sample.env_sub [])
  = (Done (Raise Again),
     Sample.feed (Sample.params "EURUSD" 4 SUB false true false) _ST_LIVE false
       [] [nan_bar],
     Sample.env_sub []).
Proof.
  exact (proj1 (sub_socket_never_tries_later Sample.granularity Sample.days
                  (Sample.feed (Sample.params "EURUSD" 4 SUB false true false)
                     _ST_LIVE false [] [nan_bar])
                  (Sample.env_sub []) eq_refl eq_refl) eq_refl 2%nat).
Defined.

(** C8 at a USDJPY candle with prices 110.0, 110.5, 109.5 and 110.25 and a
    spread of 20. *)
Lemma spread_adjusted_candle_sample :
  exists f',
    _load_candle Sample.days
      (Sample.feed (Sample.params "USDJPY" 4 DATA false true true) _ST_LIVE false
         [] [nan_bar; Sample.bar 3])
      (Candle 345600 110.0 110.5 109.5 110.25 7 20)
    = Ok (true, f') /\
    hd_error (lines f') = Some (Build_Bar 4 110.02 110.52 109.52 110.27 7 0).
Proof.
  destruct (proj1 (spread_adjusted_candle Sample.days)
              (Sample.feed (Sample.params "USDJPY" 4 DATA false true true) _ST_LIVE
                 false [] [nan_bar; Sample.bar 3])
              345600 110.0%float 110.5%float 109.5%float 110.25%float 7%float 20
              20%float 3%float eq_refl eq_refl eq_refl eq_refl)
    as (f' & H1 & H2).
  exists f'. split; [exact H1|]. rewrite H2. vm_compute. reflexivity.
Defined.

(** The test of lines 198-199 at a feed put in the LIVE state by hand. *)
Lemma no_subscription_live_ends_sample :
  haslivedata (Sample.feed (Sample.params "EURUSD" 4 SubNone false true false)
                 _ST_LIVE false [] []) = false /\
  _load Sample.granularity Sample.days 3
    (Sample.feed (Sample.params "EURUSD" 4 SubNone false true false) _ST_LIVE
       false [] [])
    (Sample.env [Sample.data_msg "M1" "EURUSD" (Sample.candle 4)])
  = (Done (Return PyFalse),
     Sample.feed (Sample.params "EURUSD" 4 SubNone false true false) _ST_LIVE
       false [] [],
     Sample.env [Sample.data_msg "M1" "EURUSD" (Sample.candle 4)]).
Proof.
  destruct (no_subscription_live_ends Sample.granularity Sample.days
              (Sample.feed (Sample.params "EURUSD" 4 SubNone false true false)
                 _ST_LIVE false [] [])
              (Sample.env [Sample.data_msg "M1" "EURUSD" (Sample.candle 4)])
              eq_refl eq_refl) as (H1 & H2 & _).
  split; [exact H1 | exact (H2 3%nat)].
Defined.

(** X1 at a poll of the feed with the overlapping history. *)
Lemma state_moves_sample :
  reach _ST_HISTORBACK
    (_state (snd (fst (_load Sample.granularity Sample.days 3
                         Sample.overlap_feed (Sample.env [])))))
  = true.
Proof.
  apply (proj2 (state_moves Sample.granularity Sample.days) 3%nat
           Sample.overlap_feed (Sample.env [])
           (fst (fst (_load Sample.granularity Sample.days 3
                        Sample.overlap_feed (Sample.env []))))
           _
           (snd (_load Sample.granularity Sample.days 3
                   Sample.overlap_feed (Sample.env [])))).
  vm_compute. reflexivity.
Defined.

(** X2 at a poll in the LIVE state that finds the queue empty. *)
Lemma returned_value_and_state_sample :
  _state (Sample.live_feed Sample.eurusd false) = _ST_LIVE /\
  p_subscribe (p (Sample.live_feed Sample.eurusd false)) = DATA.
Proof.
  exact (returned_value_and_state Sample.granularity Sample.days 1
           (Sample.live_feed Sample.eurusd false) (Sample.env []) PyNone
           (Sample.live_feed Sample.eurusd false) (Sample.env []) eq_refl).
Defined.

(** X3 at a pull of the feed with the overlapping history. *)
Lemma pull_adds_at_most_one_bar_sample :
  (exists b,
      lines (snd (fst (pull Sample.granularity Sample.days 3
                         (backwards Sample.overlap_feed) (Sample.env []))))
      = b :: [Sample.bar 3]) /\
  p (snd (fst (pull Sample.granularity Sample.days 3
                 (backwards Sample.overlap_feed) (Sample.env []))))
  = Sample.eurusd.
Proof.
  destruct (pull_adds_at_most_one_bar Sample.granularity Sample.days 3
              (backwards Sample.overlap_feed) (Sample.env [])
              (Done (Return PyTrue)) _ (Sample.env []) eq_refl)
    as (H1 & H2 & _).
  split; [exact H1|exact H2].
Defined.

(** X4 at a run of three pulls after [start]: the candles of the days 2 and
    3 are delivered, the candle of day 1 between them is not. *)
Lemma run_ascending_sample :
  ascending
    (lines (snd (pulls Sample.granularity Sample.days
                   [(5%nat, Sample.env []); (5%nat, Sample.env []);
                    (5%nat, Sample.env [])]
                   (fst (start Sample.eurusd neg_infinity infinity
                           Sample.env_history))))).
Proof.
  apply (run_ascending Sample.granularity Sample.days Sample.eurusd
           neg_infinity infinity Sample.env_history
           (fst (start Sample.eurusd neg_infinity infinity Sample.env_history))
           (snd (start Sample.eurusd neg_infinity infinity Sample.env_history))
           [(5%nat, Sample.env []); (5%nat, Sample.env []); (5%nat, Sample.env [])]
           (fst (pulls Sample.granularity Sample.days
                   [(5%nat, Sample.env []); (5%nat, Sample.env []);
                    (5%nat, Sample.env [])]
                   (fst (start Sample.eurusd neg_infinity infinity
                           Sample.env_history)))));
    vm_compute; reflexivity.
Defined.

(** X5 at a queue with a GBPUSD candle and a EURUSD candle of another
    granularity. *)
Lemma other_feeds_messages_drained_sample :
  _load Sample.granularity Sample.days 3
    (Sample.live_feed Sample.eurusd false)
    (Sample.env [Sample.data_msg "M1" "GBPUSD" (Sample.candle 4);
                 Sample.data_msg "M5" "EURUSD" (Sample.candle 4)])
  = (Done (Return PyNone), Sample.live_feed Sample.eurusd false, Sample.env []).
Proof.
  apply (other_feeds_messages_drained Sample.granularity Sample.days
           (Sample.live_feed Sample.eurusd false)
           (Sample.env [Sample.data_msg "M1" "GBPUSD" (Sample.candle 4);
                        Sample.data_msg "M5" "EURUSD" (Sample.candle 4)])
           3%nat eq_refl eq_refl).
  - constructor; [|constructor; [|constructor]].
    + exists "CONNECTED"%string, "M1"%string.
      repeat split; try discriminate.
      right. exists "GBPUSD"%string. split; [reflexivity|discriminate].
    + exists "CONNECTED"%string, "M5"%string.
      repeat split; try discriminate.
      left. discriminate.
  - simpl. lia.
Defined.

(** X6 at the feed with the overlapping history: the candles of the days 1
    and 2 are skipped and the candle of day 4 is delivered. *)
Lemma stale_candles_skipped_sample :
  exists f',
    _load Sample.granularity Sample.days 3 Sample.overlap_feed (Sample.env [])
    = (Done (Return PyTrue), f', Sample.env []) /\
    map datetime (lines f') = [4%float; 3%float] /\
    qhist f' = [HEnd].
Proof.
  destruct (stale_candles_skipped Sample.granularity Sample.days
              Sample.overlap_feed (Sample.env [])
              [HData (Sample.candle 1); HData (Sample.candle 2)]
              345600 1.5%float 1.5%float 1.5%float 1.5%float 10%float 20
              [HEnd] 3%float
              (set_lines Sample.overlap_feed
                 [Build_Bar 4 1.5 1.5 1.5 1.5 10 0; Sample.bar 3])
              3%nat eq_refl)
    as (f' & H1 & H2 & H3 & _).
  - discriminate.
  - reflexivity.
  - reflexivity.
  - constructor; [|constructor; [|constructor]].
    + exists 86400, 1.5%float, 1.5%float, 1.5%float, 1.5%float, 10%float, 20.
      split; [reflexivity|vm_compute; reflexivity].
    + exists 172800, 1.5%float, 1.5%float, 1.5%float, 1.5%float, 10%float, 20.
      split; [reflexivity|vm_compute; reflexivity].
  - vm_compute. reflexivity.
  - simpl. lia.
  - exists f'. split; [exact H1|]. split; [now rewrite H2|exact H3].
Defined.

(** X7 at a tick feed whose last bar is of day 3, with the tick of day 4 in
    the queue. *)
Lemma live_tick_delivered_sample :
  _load Sample.granularity Sample.days 1
    (Sample.live_feed Sample.eurusd_ticks false)
    (Sample.env [Sample.data_msg "TICK" "EURUSD" (Sample.tick 4)])
  = (Done (Return PyTrue),
     set_lines (Sample.live_feed Sample.eurusd_ticks false)
       [Build_Bar 4 1.1 1.1 1.1 1.1 0 0; Sample.bar 3],
     Sample.env []).
Proof.
  apply (live_tick_delivered Sample.granularity Sample.days
           (Sample.live_feed Sample.eurusd_ticks false)
           (Sample.env [Sample.data_msg "TICK" "EURUSD" (Sample.tick 4)])
           (Sample.data_msg "TICK" "EURUSD" (Sample.tick 4)) (Sample.env [])
           "CONNECTED" 345600000 1.1%float 1.2%float 345600000%float 3%float
           0%nat eq_refl eq_refl eq_refl);
    try reflexivity; try discriminate; vm_compute; reflexivity.
Defined.

(** X8 at a candle feed whose last bar is of day 3, with the candle of day 4
    in the historical queue. *)
Lemma historical_candle_delivered_sample :
  exists f',
    _load Sample.granularity Sample.days 1
      (Sample.feed Sample.eurusd _ST_HISTORBACK false
         [HData (Sample.candle 4); HEnd] [nan_bar; Sample.bar 3])
      (Sample.env [])
    = (Done (Return PyTrue), f', Sample.env []) /\
    lines f' = [Build_Bar 4 1.5 1.5 1.5 1.5 10 0; Sample.bar 3] /\
    qhist f' = [HEnd].
Proof.
  destruct (historical_candle_delivered Sample.granularity Sample.days
              (Sample.feed Sample.eurusd _ST_HISTORBACK false
                 [HData (Sample.candle 4); HEnd] [nan_bar; Sample.bar 3])
              (Sample.env [])
              345600 1.5%float 1.5%float 1.5%float 1.5%float 10%float 20
              [HEnd] 3%float 0%nat eq_refl)
    as (f' & H1 & H2 & H3 & _).
  - discriminate.
  - reflexivity.
  - reflexivity.
  - reflexivity.
  - vm_compute. reflexivity.
  - exists f'. split; [exact H1|]. split; [|exact H3].
    rewrite H2. vm_compute. reflexivity.
Defined.

(** X9 at a message that holds a timeframe and no status. *)
Lemma missing_key_raises_sample :
  _load Sample.granularity Sample.days 1
    (Sample.live_feed Sample.eurusd false)
    (Sample.env [Build_LiveMsg None (Some "M1"%string) None None])
  = (Done (Raise (KeyError "status")), Sample.live_feed Sample.eurusd false,
     Sample.env []).
Proof.
  exact (proj1 (missing_key_raises Sample.granularity Sample.days
                  (Sample.live_feed Sample.eurusd false)
                  (Sample.env [Build_LiveMsg None (Some "M1"%string) None None])
                  (Build_LiveMsg None (Some "M1"%string) None None)
                  (Sample.env []) 0%nat eq_refl eq_refl eq_refl) eq_refl).
Defined.

(** X10 at a feed with backfill and a DISCONNECTED status alone in the
    queue. *)
Lemma disconnected_with_backfill_keeps_polling_sample :
  _load Sample.granularity Sample.days 2
    (Sample.live_feed Sample.eurusd false)
    (Sample.env [Sample.status_msg "DISCONNECTED"])
  = (Done (Return PyNone),
     set_statelivereconn
       (put_notification (Sample.live_feed Sample.eurusd false) DISCONNECTED)
       true,
     Sample.env []).
Proof.
  exact (proj2 (disconnected_with_backfill_keeps_polling Sample.granularity
                  Sample.days (Sample.live_feed Sample.eurusd false)
                  (Sample.env [Sample.status_msg "DISCONNECTED"])
                  (Sample.status_msg "DISCONNECTED") (Sample.env [])
                  eq_refl eq_refl eq_refl eq_refl) eq_refl eq_refl 0%nat).
Defined.

(** X11 at a feed whose last bar is of day 3, with DISCONNECTED and then
    CONNECTED in the queue. *)
Lemma reconnection_cycle_sample :
  exists f' env',
    (forall n,
        _load Sample.granularity Sample.days (S (S n))
          (Sample.live_feed Sample.eurusd false)
          (Sample.env [Sample.status_msg "DISCONNECTED";
                       Sample.status_msg "CONNECTED"])
        = loop Sample.granularity Sample.days n f' env') /\
    _state f' = _ST_HISTORBACK /\
    notifs f' = [DISCONNECTED; CONNECTED; DELAYED] /\
    fromdate f' = 3%float /\
    map r_date_begin (requests env') = [Some 3%float].
Proof.
  destruct (reconnection_cycle Sample.granularity Sample.days
              (Sample.live_feed Sample.eurusd false)
              (Sample.env [Sample.status_msg "DISCONNECTED";
                           Sample.status_msg "CONNECTED"])
              (Sample.status_msg "DISCONNECTED") (Sample.status_msg "CONNECTED")
              [] nan_bar (Sample.bar 3) []
              eq_refl eq_refl eq_refl eq_refl eq_refl eq_refl eq_refl)
    as (f' & env' & H1 & H2 & _ & H4 & _ & H6 & _ & _ & H9).
  exists f', env'. repeat split; assumption.
Defined.

(** X12 at a feed that is not historical-only, with None in the historical
    queue. *)
Lemma cancelled_history_ends_feed_sample :
  exists f',
    _load Sample.granularity Sample.days 1
      (Sample.feed Sample.eurusd _ST_HISTORBACK false [HNone]
         [nan_bar; Sample.bar 3])
      (Sample.env [])
    = (Done (Return PyFalse), f', Sample.env []) /\
    _state f' = _ST_OVER /\
    notifs f' = [DISCONNECTED].
Proof.
  destruct (cancelled_history_ends_feed Sample.granularity Sample.days
              (Sample.feed Sample.eurusd _ST_HISTORBACK false [HNone]
                 [nan_bar; Sample.bar 3])
              (Sample.env []) [] 0%nat eq_refl eq_refl)
    as (f' & H1 & H2 & H3 & _).
  exists f'. repeat split; assumption.
Defined.

(** X13 at the first pull from the external feed that starts with the bar of
    day 5. *)
Lemma external_bar_copied_sample :
  exists f' env',
    pull Sample.granularity Sample.days 1
      (Sample.feed Sample.eurusd _ST_FROM false [] []) Sample.env_from
    = (Done (Return PyTrue), f', env') /\
    lines f' = [Sample.bar 5] /\
    backfill_from env' = Some [Sample.bar 3].
Proof.
  destruct (external_bar_copied Sample.granularity Sample.days
              (Sample.feed Sample.eurusd _ST_FROM false [] []) Sample.env_from
              (Sample.bar 5) [Sample.bar 3] 0%nat eq_refl eq_refl)
    as (f' & env' & H1 & H2 & H3 & _).
  exists f', env'. repeat split; assumption.
Defined.

(** X14 at a feed whose external feed has no bar left. *)
Lemma external_feed_handover_sample :
  exists f' env',
    (forall n,
        _load Sample.granularity Sample.days (S (S n))
          (Sample.feed Sample.eurusd _ST_FROM false [] [nan_bar; Sample.bar 3])
          (Build_Env [] [] [[HData (Sample.candle 4)]] [] (Some []))
        = _load Sample.granularity Sample.days n f' env') /\
    _state f' = _ST_HISTORBACK /\
    notifs f' = [DELAYED] /\
    qhist f' = [HData (Sample.candle 4)].
Proof.
  destruct (external_feed_handover Sample.granularity Sample.days
              (Sample.feed Sample.eurusd _ST_FROM false [] [nan_bar; Sample.bar 3])
              (Build_Env [] [] [[HData (Sample.candle 4)]] [] (Some []))
              eq_refl eq_refl)
    as (f' & env' & H1 & H2 & H3 & _ & H5 & _).
  exists f', env'. repeat split; assumption.
Defined.

(** X15 at a feed without subscription that finds the end of the history. *)
Lemma no_subscription_end_of_history_spins_sample :
  exists f',
    _load Sample.granularity Sample.days 50
      (Sample.feed (Sample.params "EURUSD" 4 SubNone false true false)
         _ST_HISTORBACK false [HEnd] [nan_bar; Sample.bar 3])
      (Sample.env [])
    = (Spins, f', Sample.env []) /\
    _state f' = _ST_LIVE.
Proof.
  exact (no_subscription_end_of_history_spins Sample.granularity Sample.days
           49%nat
           (Sample.feed (Sample.params "EURUSD" 4 SubNone false true false)
              _ST_HISTORBACK false [HEnd] [nan_bar; Sample.bar 3])
           (Sample.env []) [] eq_refl eq_refl eq_refl eq_refl).
Defined.

(** X17 at a poll that meets a disconnection and the reconnection. *)
Lemma requests_are_announced_sample :
  exists added reqs,
    notifs (snd (fst (_load Sample.granularity Sample.days 4
                        (Sample.live_feed Sample.eurusd false)
                        (Sample.env [Sample.status_msg "DISCONNECTED";
                                     Sample.status_msg "CONNECTED"]))))
    = [] ++ added /\
    requests (snd (_load Sample.granularity Sample.days 4
                     (Sample.live_feed Sample.eurusd false)
                     (Sample.env [Sample.status_msg "DISCONNECTED";
                                  Sample.status_msg "CONNECTED"])))
    = [] ++ reqs /\
    List.length reqs = count_delayed added.
Proof.
  apply (requests_are_announced Sample.granularity Sample.days 4
           (Sample.live_feed Sample.eurusd false)
           (Sample.env [Sample.status_msg "DISCONNECTED";
                        Sample.status_msg "CONNECTED"])
           (fst (fst (_load Sample.granularity Sample.days 4
                        (Sample.live_feed Sample.eurusd false)
                        (Sample.env [Sample.status_msg "DISCONNECTED";
                                     Sample.status_msg "CONNECTED"]))))).
  vm_compute. reflexivity.
Defined.

(** C10 at a feed without subscription, from [start]: the first pull delivers
    the candle of day 2 and leaves the feed in HISTORBACK; the second pull
    finds the end of the history, sets the state to LIVE and does not
    return. *)
Lemma no_subscription_never_polls_live_sample :
  _state (snd (pulls Sample.granularity Sample.days [(5%nat, Sample.env [])]
                 (fst (start Sample.unsubscribed neg_infinity infinity
                         Sample.env_short_history))))
  <> _ST_LIVE /\
  _load Sample.granularity Sample.days 5
    (forward
       (snd (pulls Sample.granularity Sample.days [(5%nat, Sample.env [])]
               (fst (start Sample.unsubscribed neg_infinity infinity
                       Sample.env_short_history)))))
    (Sample.env [])
  = (Spins,
     snd (fst (loop_body Sample.granularity Sample.days
                 (forward
                    (snd (pulls Sample.granularity Sample.days
                            [(5%nat, Sample.env [])]
                            (fst (start Sample.unsubscribed neg_infinity infinity
                                    Sample.env_short_history)))))
                 (Sample.env []))),
     Sample.env []).
Proof.
  split.
  - apply (proj1 (no_subscription_never_polls_live Sample.granularity
                    Sample.days)
             Sample.unsubscribed neg_infinity infinity Sample.env_short_history
             (fst (start Sample.unsubscribed neg_infinity infinity
                     Sample.env_short_history))
             (snd (start Sample.unsubscribed neg_infinity infinity
                     Sample.env_short_history))
             [(5%nat, Sample.env [])]
             [Done (Return PyTrue)]).
    + reflexivity.
    + reflexivity.
    + vm_compute. reflexivity.
    + constructor; [discriminate|constructor].
  - apply (proj2 (no_subscription_never_polls_live Sample.granularity
                    Sample.days)).
    + reflexivity.
    + vm_compute. discriminate.
    + vm_compute. reflexivity.
    + vm_compute. reflexivity.
Defined.
